(** * Transaction dashboard: date normalisation, filtering and aggregates

    A shallow embedding of the pure core of
    [src/components/TransactionDashboard.tsx]: [parseTransferDate],
    [combinedFilter], [filterTransactions] and the two aggregate cards,
    together with the ECMAScript built-ins they call.

    Modelling conventions.
    - A JS string is a [string]: a sequence of code units, here restricted
      to the one-byte units.
    - An integer-valued Number that may be NaN ([parseInt] results, time
      values) is an [option Z], [None] standing for NaN.  The sign of zero
      is not tracked there: it is unobservable through [||] and through the
      Date constructor.
    - The amounts are IEEE 754 binary64 values, [spec_float] with
      [prec = 53] and [emax = 1024].
    - [null] and [undefined] are [None] of an option type.
    - The local time zone is the host's: its offset from UTC, in
      milliseconds, at a time value that is either a UTC time or a local
      time (ECMAScript's LocalTZA). *)

From Stdlib Require Import ZArith List String Ascii Bool Lia SpecFloat.
Import ListNotations.

Local Open Scope string_scope.
Local Open Scope Z_scope.

(** ** ECMAScript string built-ins *)

Module JS.

(** WhiteSpace and LineTerminator code units below 256: TAB, LF, VT, FF, CR,
    SP and NBSP. *)
Definition isWhiteSpace (c : ascii) : bool :=
  let n := N_of_ascii c in
  ((9 <=? n) && (n <=? 13) || (n =? 32) || (n =? 160))%N.

Fixpoint trimStart (s : string) : string :=
  match s with
  | EmptyString => EmptyString
  | String c s' => if isWhiteSpace c then trimStart s' else s
  end.

Fixpoint trimEnd (s : string) : string :=
  match s with
  | EmptyString => EmptyString
  | String c s' =>
      match trimEnd s' with
      | EmptyString => if isWhiteSpace c then EmptyString else String c EmptyString
      | r => String c r
      end
  end.

(** [String.prototype.trim] *)
Definition trim (s : string) : string := trimEnd (trimStart s).

(** [String.prototype.split] with a separator of one code unit. *)
Fixpoint split (sep : ascii) (s : string) : list string :=
  match s with
  | EmptyString => [EmptyString]
  | String c s' =>
      if Ascii.eqb c sep then EmptyString :: split sep s'
      else match split sep s' with
           | [] => [String c EmptyString]
           | p :: ps => String c p :: ps
           end
  end.

(** [String.prototype.includes] *)
Fixpoint includes (s sub : string) : bool :=
  String.prefix sub s
  || match s with
     | EmptyString => false
     | String _ s' => includes s' sub
     end.

Definition lowerUnit (c : ascii) : ascii :=
  let n := N_of_ascii c in
  if ((65 <=? n) && (n <=? 90)
      || (192 <=? n) && (n <=? 222) && negb (n =? 215))%N
  then ascii_of_N (n + 32) else c.

(** [String.prototype.toLowerCase] *)
Fixpoint toLowerCase (s : string) : string :=
  match s with
  | EmptyString => EmptyString
  | String c s' => String (lowerUnit c) (toLowerCase s')
  end.

Fixpoint repeatUnit (c : ascii) (n : nat) : string :=
  match n with
  | O => EmptyString
  | S n' => String c (repeatUnit c n')
  end.

(** [String.prototype.padStart] with a filler of one code unit. *)
Definition padStart (s : string) (maxLength : nat) (fill : ascii) : string :=
  repeatUnit fill (maxLength - String.length s) ++ s.

(** ToBoolean on a string: the empty string is the only falsy one. *)
Definition truthy (s : string) : bool :=
  match s with
  | EmptyString => false
  | String _ _ => true
  end.

(** ToBoolean on [string | null]. *)
Definition truthyOpt (s : option string) : bool :=
  match s with
  | None => false
  | Some s' => truthy s'
  end.

(** [a || b] on strings. *)
Definition orElse (a b : string) : string := if truthy a then a else b.

(** ToString of an array element that may be missing. *)
Definition ToStringElem (v : option string) : string :=
  match v with
  | None => "undefined"
  | Some s => s
  end.

(** *** Decimal digits *)

Definition digitValue (c : ascii) : option Z :=
  let n := N_of_ascii c in
  if ((48 <=? n) && (n <=? 57))%N then Some (Z.of_N n - 48) else None.

(** The value of the longest prefix of decimal digits; [acc] is the value
    read so far, [None] as long as no digit was seen. *)
Fixpoint readDigits (s : string) (acc : option Z) : option Z :=
  match s with
  | EmptyString => acc
  | String c s' =>
      match digitValue c with
      | None => acc
      | Some d =>
          readDigits s' (Some (10 * match acc with None => 0 | Some a => a end + d))
      end
  end.

(** [parseInt(s, 10)]: NaN is [None]. *)
Definition parseInt (s : string) : option Z :=
  let S := trimStart s in
  let '(sign, rest) :=
    match S with
    | String "-" r => (-1, r)
    | String "+" r => (1, r)
    | _ => (1, S)
    end in
  match readDigits rest None with
  | None => None
  | Some n => Some (sign * n)
  end.

(** [x || 0] on a Number: NaN and zero give 0. *)
Definition orZero (x : option Z) : Z :=
  match x with
  | None => 0
  | Some n => n
  end.

Definition digitUnit (d : Z) : ascii := ascii_of_N (Z.to_N d + 48).

Fixpoint natDigits (fuel : nat) (n : Z) (acc : string) : string :=
  match fuel with
  | O => acc
  | S fuel' =>
      let acc' := String (digitUnit (n mod 10)) acc in
      if n <? 10 then acc' else natDigits fuel' (n / 10) acc'
  end.

(** Number::toString on an integer-valued Number, radix 10. *)
Definition NumberToString (x : option Z) : string :=
  match x with
  | None => "NaN"
  | Some n =>
      if n <? 0 then String "-" (natDigits (Z.to_nat (Z.log2 (- n)) + 1) (- n) "")
      else natDigits (Z.to_nat (Z.log2 n) + 1) n ""
  end.

End JS.

(** ** ECMAScript Date: time values and the Date constructor *)

Module JSDate.

Definition msPerDay : Z := 86400000.
Definition msPerHour : Z := 3600000.
Definition msPerMinute : Z := 60000.
Definition msPerSecond : Z := 1000.
Definition maxTime : Z := 8640000000000000.

Definition Day (t : Z) : Z := t / msPerDay.
Definition TimeWithinDay (t : Z) : Z := t mod msPerDay.

Definition isLeap (y : Z) : bool :=
  if negb (y mod 4 =? 0) then false
  else if negb (y mod 100 =? 0) then true
  else if negb (y mod 400 =? 0) then false
  else true.

Definition DaysInYear (y : Z) : Z := if isLeap y then 366 else 365.

Definition DayFromYear (y : Z) : Z :=
  365 * (y - 1970) + (y - 1969) / 4 - (y - 1901) / 100 + (y - 1601) / 400.

Definition TimeFromYear (y : Z) : Z := msPerDay * DayFromYear y.

(** The year holding day number [d]: the largest [y] with
    [DayFromYear y <= d], found from an estimate that is off by at most one. *)
Definition YearFromDay (d : Z) : Z :=
  let y0 := 1970 + (400 * d) / 146097 in
  if d <? DayFromYear y0 then y0 - 1
  else if DayFromYear (y0 + 1) <=? d then y0 + 1
  else y0.

Definition YearFromTime (t : Z) : Z := YearFromDay (Day t).

Definition InLeapYear (t : Z) : Z :=
  if isLeap (YearFromTime t) then 1 else 0.

Definition DayWithinYear (t : Z) : Z := Day t - DayFromYear (YearFromTime t).

Definition MonthFromTime (t : Z) : Z :=
  let d := DayWithinYear t in
  let l := InLeapYear t in
  if d <? 31 then 0
  else if d <? 59 + l then 1
  else if d <? 90 + l then 2
  else if d <? 120 + l then 3
  else if d <? 151 + l then 4
  else if d <? 181 + l then 5
  else if d <? 212 + l then 6
  else if d <? 243 + l then 7
  else if d <? 273 + l then 8
  else if d <? 304 + l then 9
  else if d <? 334 + l then 10
  else 11.

Definition DateFromTime (t : Z) : Z :=
  let d := DayWithinYear t in
  let l := InLeapYear t in
  match MonthFromTime t with
  | 0 => d + 1
  | 1 => d - 30
  | 2 => d - 58 - l
  | 3 => d - 89 - l
  | 4 => d - 119 - l
  | 5 => d - 150 - l
  | 6 => d - 180 - l
  | 7 => d - 211 - l
  | 8 => d - 242 - l
  | 9 => d - 272 - l
  | 10 => d - 303 - l
  | _ => d - 333 - l
  end.

(** Day within the year of the first day of month [mn] (0-based). *)
Definition monthStart (mn : Z) (leap : bool) : Z :=
  let l := if leap then 1 else 0 in
  match mn with
  | 0 => 0
  | 1 => 31
  | 2 => 59 + l
  | 3 => 90 + l
  | 4 => 120 + l
  | 5 => 151 + l
  | 6 => 181 + l
  | 7 => 212 + l
  | 8 => 243 + l
  | 9 => 273 + l
  | 10 => 304 + l
  | _ => 334 + l
  end.

Definition MakeTime (hour min sec ms : Z) : Z :=
  hour * msPerHour + min * msPerMinute + sec * msPerSecond + ms.

(** MakeDay: the day number of the first of the month plus [date - 1]. It
    is NaN only when an argument is not finite, which an integer is. *)
Definition MakeDay (year month date : Z) : option Z :=
  let ym := year + month / 12 in
  let mn := month mod 12 in
  let first := DayFromYear ym + monthStart mn (isLeap ym) in
  Some (first + date - 1).

Definition MakeDate (day : option Z) (time : Z) : option Z :=
  match day with
  | None => None
  | Some d => Some (d * msPerDay + time)
  end.

Definition MakeFullYear (year : Z) : Z :=
  if (0 <=? year) && (year <=? 99) then 1900 + year else year.

Definition TimeClip (time : option Z) : option Z :=
  match time with
  | None => None
  | Some t => if maxTime <? Z.abs t then None else Some t
  end.

Definition HourFromTime (t : Z) : Z := (t / msPerHour) mod 24.
Definition MinFromTime (t : Z) : Z := (t / msPerMinute) mod 60.
Definition SecFromTime (t : Z) : Z := (t / msPerSecond) mod 60.

(** A Date object: its [[DateValue]], NaN being [None]. *)
Record Date : Type := mkDate { DateValue : option Z }.

(** A time zone: LocalTZA(t, isUTC), the offset of local time from UTC in
    milliseconds at [t]. With [isUTC] the time value [t] is a UTC time;
    without, it is a local time, read with the offset before the change
    when a change of offset skips or repeats it. *)
Definition TimeZone : Type := Z -> bool -> Z.

(** A zone that keeps one offset. *)
Definition fixedOffset (offset : Z) : TimeZone := fun _ _ => offset.

Section LocalZone.

Variable LocalTZA : TimeZone.

Definition LocalTime (t : Z) : Z := t + LocalTZA t true.
Definition UTC (t : Z) : Z := t - LocalTZA t false.

(** [new Date(year, month, date, hours, minutes, seconds)] *)
Definition construct (year month date hours minutes seconds : option Z) : Date :=
  match year, month, date, hours, minutes, seconds with
  | Some y, Some m, Some dt, Some h, Some mi, Some s =>
      let yr := MakeFullYear y in
      let finalDate := MakeDate (MakeDay yr m dt) (MakeTime h mi s 0) in
      mkDate (TimeClip (option_map UTC finalDate))
  | _, _, _, _, _, _ => mkDate None
  end.

(** [new Date(string)], from the host's [Date.parse]. *)
Definition constructFromString (parse : string -> option Z) (s : string) : Date :=
  mkDate (TimeClip (parse s)).

(** [Date.prototype.getTime] *)
Definition getTime (d : Date) : option Z := DateValue d.

(** [isNaN] on an integer-valued Number *)
Definition isNaN (x : option Z) : bool :=
  match x with
  | None => true
  | Some _ => false
  end.

Definition getFullYear (d : Date) : option Z :=
  option_map (fun t => YearFromTime (LocalTime t)) (DateValue d).

Definition getMonth (d : Date) : option Z :=
  option_map (fun t => MonthFromTime (LocalTime t)) (DateValue d).

Definition getDate (d : Date) : option Z :=
  option_map (fun t => DateFromTime (LocalTime t)) (DateValue d).

Definition getHours (d : Date) : option Z :=
  option_map (fun t => HourFromTime (LocalTime t)) (DateValue d).

Definition getMinutes (d : Date) : option Z :=
  option_map (fun t => MinFromTime (LocalTime t)) (DateValue d).

Definition getSeconds (d : Date) : option Z :=
  option_map (fun t => SecFromTime (LocalTime t)) (DateValue d).

End LocalZone.

End JSDate.

(** ** ECMAScript Numbers: binary64 and [parseFloat] *)

Module JSNumber.

Definition Number : Type := spec_float.

Definition prec : Z := 53.
Definition emax : Z := 1024.

Definition NaN : Number := S754_nan.
Definition zero : Number := S754_zero false.

Definition add (x y : Number) : Number := SFadd prec emax x y.
Definition div (x y : Number) : Number := SFdiv prec emax x y.

(** The Number nearest to an integer (ties to even). *)
Definition ofZ (n : Z) : Number := binary_normalize prec emax n 0 false.

Definition isNaN (x : Number) : bool :=
  match x with
  | S754_nan => true
  | _ => false
  end.

(** The integer a Number is equal to, when it is one. *)
Definition integerValue (x : Number) : option Z :=
  match x with
  | S754_zero _ => Some 0
  | S754_finite s m e =>
      let sign := if s then Z.opp else id in
      if 0 <=? e then Some (sign (Z.pos m * 2 ^ e))
      else if Z.pos m mod 2 ^ (- e) =? 0 then Some (sign (Z.pos m / 2 ^ (- e)))
      else None
  | _ => None
  end.

(** The Number nearest to [m * 10 ^ e], for [0 <= m]; [neg] is the sign. *)
Definition ofDecimal (neg : bool) (m e : Z) : Number :=
  match m with
  | Zpos p =>
      if 0 <=? e then binary_normalize prec emax
                        ((if neg then Z.opp else id) (m * 10 ^ e)) 0 neg
      else div (S754_finite neg p 0) (S754_finite false (Z.to_pos (10 ^ (- e))) 0)
  | _ => S754_zero neg
  end.

(** The longest prefix of decimal digits: its value on top of [acc], its
    length, and what follows it. *)
Fixpoint takeDigits (s : string) (acc : Z) (n : Z) : Z * Z * string :=
  match s with
  | EmptyString => (acc, n, s)
  | String c s' =>
      match JS.digitValue c with
      | None => (acc, n, s)
      | Some d => takeDigits s' (10 * acc + d) (n + 1)
      end
  end.

(** The value of an ExponentPart at the head of [s], 0 when there is none. *)
Definition exponentPart (s : string) : Z :=
  match s with
  | String c r =>
      if (Ascii.eqb c "e" || Ascii.eqb c "E")%char then
        let '(neg, r') :=
          match r with
          | String "-" r' => (true, r')
          | String "+" r' => (false, r')
          | _ => (false, r)
          end in
        let '(v, n, _) := takeDigits r' 0 0 in
        if n =? 0 then 0 else if neg then - v else v
      else 0
  | EmptyString => 0
  end.

(** [parseFloat]: the value of the longest prefix of the trimmed string
    that is a StrDecimalLiteral, NaN when there is none. *)
Definition parseFloat (s : string) : Number :=
  let S := JS.trimStart s in
  let '(neg, r0) :=
    match S with
    | String "-" r => (true, r)
    | String "+" r => (false, r)
    | _ => (false, S)
    end in
  if String.prefix "Infinity" r0 then S754_infinity neg
  else
    let '(iv, ic, r1) := takeDigits r0 0 0 in
    let '(mv, fc, r2) :=
      match r1 with
      | String "." r => takeDigits r iv 0
      | _ => (iv, 0, r1)
      end in
    if (ic =? 0) && (fc =? 0) then NaN
    else ofDecimal neg mv (exponentPart r2 - fc).

End JSNumber.

(** ** The dashboard *)

Module Transaction.
Record t : Type := mk {
  id : Z;
  bank_name : option string;
  sender : string;
  receiver : option string;
  transfer_time : option string;
  amount : option string;
  txn_hash : string
}.
End Transaction.

Module FilterState.
Record t : Type := mk {
  month : string;
  date : string;
  sender : string;
  receiver : string
}.
End FilterState.

Section Dashboard.

(** The host: its time zone and its [Date.parse]. *)
Variable LocalTZA : JSDate.TimeZone.
Variable DateParse : string -> option Z.

(** [a[i]], [undefined] past the end. *)
Definition elem (a : list string) (i : nat) : option string := nth_error a i.

Definition parseIntElem (a : list string) (i : nat) : option Z :=
  JS.parseInt (JS.ToStringElem (elem a i)).

Definition parseTransferDate (dateString : option string) : option JSDate.Date :=
  match dateString with
  | None => None
  | Some s =>
      if negb (JS.truthy s) then None
      else
        let parts := JS.split " " (JS.trim s) in
        let fallback :=
          let fallbackDate := JSDate.constructFromString DateParse s in
          if negb (JSDate.isNaN (JSDate.getTime fallbackDate))
          then Some fallbackDate else None in
        if (1 <=? List.length parts)%nat then
          match elem parts 0 with
          | None => None (* a TypeError, caught by the handler *)
          | Some p0 =>
              let dateParts := JS.split "/" p0 in
              if (List.length dateParts =? 3)%nat then
                let day := parseIntElem dateParts 0 in
                let month := option_map (fun m => m - 1) (parseIntElem dateParts 1) in
                let year := parseIntElem dateParts 2 in
                let '(hours, minutes, seconds) :=
                  if (List.length parts =? 2)%nat && JS.truthyOpt (elem parts 1) then
                    let timeParts := JS.split ":" (JS.ToStringElem (elem parts 1)) in
                    if (2 <=? List.length timeParts)%nat then
                      (JS.orZero (parseIntElem timeParts 0),
                       JS.orZero (parseIntElem timeParts 1),
                       JS.orZero (parseIntElem timeParts 2))
                    else (0, 0, 0)
                  else (0, 0, 0) in
                let date :=
                  JSDate.construct LocalTZA year month day
                    (Some hours) (Some minutes) (Some seconds) in
                if JSDate.isNaN (JSDate.getTime date) then None else Some date
              else fallback
          end
        else fallback
  end.

(** The table's filter, merged from the two cards' filters. *)
Definition combinedFilter (totalAmountFilter avgAmountFilter : FilterState.t)
  : FilterState.t :=
  FilterState.mk
    (JS.orElse (FilterState.month totalAmountFilter) (FilterState.month avgAmountFilter))
    (JS.orElse (FilterState.date totalAmountFilter) (FilterState.date avgAmountFilter))
    (FilterState.sender avgAmountFilter)
    "".

Definition pad2 (x : option Z) : string := JS.padStart (JS.NumberToString x) 2 "0".

(** The template string [YYYY-MM] of a Date. *)
Definition monthYearOf (d : JSDate.Date) : string :=
  JS.NumberToString (JSDate.getFullYear LocalTZA d) ++ "-"
  ++ pad2 (option_map (fun m => m + 1) (JSDate.getMonth LocalTZA d)).

(** The template string [YYYY-MM-DD] of a Date. *)
Definition dateStrOf (d : JSDate.Date) : string :=
  monthYearOf d ++ "-" ++ pad2 (JSDate.getDate LocalTZA d).

(** The callback of [transactions.filter]. *)
Definition keeps (filter : FilterState.t) (transaction : Transaction.t) : bool :=
  let transactionDate := parseTransferDate (Transaction.transfer_time transaction) in
  if match transactionDate with
     | Some d => JS.truthy (FilterState.month filter)
                 && negb (monthYearOf d =? FilterState.month filter)%string
     | None => false
     end
  then false
  else if match transactionDate with
          | Some d => JS.truthy (FilterState.date filter)
                      && negb (dateStrOf d =? FilterState.date filter)%string
          | None => false
          end
  then false
  else if JS.truthy (FilterState.sender filter)
          && negb (JS.includes (JS.toLowerCase (Transaction.sender transaction))
                               (JS.toLowerCase (FilterState.sender filter)))
  then false
  else if JS.truthy (FilterState.receiver filter)
          && match Transaction.receiver transaction with
             | Some r => JS.truthy r
                         && negb (JS.includes (JS.toLowerCase r)
                                    (JS.toLowerCase (FilterState.receiver filter)))
             | None => false
             end
  then false
  else true.

Definition filterTransactions (transactions : list Transaction.t)
    (filter : FilterState.t) : list Transaction.t :=
  List.filter (keeps filter) transactions.

(** [t.amount || "0"] *)
Definition amountOrZero (t : Transaction.t) : string :=
  match Transaction.amount t with
  | None => "0"
  | Some a => JS.orElse a "0"
  end.

(** The callback of [reduce]: [sum + parseFloat(t.amount || "0")]. *)
Definition addAmount (sum : JSNumber.Number) (t : Transaction.t) : JSNumber.Number :=
  JSNumber.add sum (JSNumber.parseFloat (amountOrZero t)).

(** The [reduce] of both cards, from 0. *)
Definition sumAmounts (filtered : list Transaction.t) : JSNumber.Number :=
  fold_left addAmount filtered JSNumber.zero.

(** [total] of the total card, before it is formatted for display. *)
Definition totalAmountStats (transactions : list Transaction.t)
    (totalAmountFilter : FilterState.t) : JSNumber.Number :=
  sumAmounts (filterTransactions transactions totalAmountFilter).

(** [avg] of the average card, before it is formatted for display. *)
Definition avgAmountStats (transactions : list Transaction.t)
    (avgAmountFilter : FilterState.t) : JSNumber.Number :=
  let filtered := filterTransactions transactions avgAmountFilter in
  let total := sumAmounts filtered in
  if (0 <? List.length filtered)%nat
  then JSNumber.div total (JSNumber.ofZ (Z.of_nat (List.length filtered)))
  else JSNumber.zero.

(** The date part, YYYY-MM-DD, the empty string when the date does not
    parse. *)
Definition getDateOnly (dateString : option string) : string :=
  match parseTransferDate dateString with
  | None => ""
  | Some date =>
      let year := JSDate.getFullYear LocalTZA date in
      let month := pad2 (option_map (fun m => m + 1) (JSDate.getMonth LocalTZA date)) in
      let day := pad2 (JSDate.getDate LocalTZA date) in
      JS.NumberToString year ++ "-" ++ month ++ "-" ++ day
  end.

(** The time part, HH:MM:SS, the empty string when the date does not
    parse. *)
Definition getTimeOnly (dateString : option string) : string :=
  match parseTransferDate dateString with
  | None => ""
  | Some date =>
      let hours := pad2 (JSDate.getHours LocalTZA date) in
      let minutes := pad2 (JSDate.getMinutes LocalTZA date) in
      let seconds := pad2 (JSDate.getSeconds LocalTZA date) in
      hours ++ ":" ++ minutes ++ ":" ++ seconds
  end.

(** The rows of the table. *)
Definition tableTransactions (transactions : list Transaction.t)
    (totalAmountFilter avgAmountFilter : FilterState.t) : list Transaction.t :=
  filterTransactions transactions (combinedFilter totalAmountFilter avgAmountFilter).

End Dashboard.

(** ** Concrete hosts and inputs used by the examples *)

(** Indochina Time, UTC+7. *)
Definition ict : JSDate.TimeZone := JSDate.fixedOffset 25200000.

(** A zone that changes offset once, as Asia/Ho_Chi_Minh did at the end of
    1942: UTC+7 until 31 December 1942, 23:00 local time, and UTC+8 from
    then on, so that the local times from 23:00 to midnight are skipped. *)
Definition saigon1942 : JSDate.TimeZone :=
  let change := JSDate.TimeFromYear 1943 - 8 * JSDate.msPerHour in
  fun t isUTC =>
    if isUTC
    then if t <? change then 7 * JSDate.msPerHour else 8 * JSDate.msPerHour
    else if t <? change + 8 * JSDate.msPerHour
         then 7 * JSDate.msPerHour else 8 * JSDate.msPerHour.

(** A [Date.parse] that recognises no string. *)
Definition parseNothing (s : string) : option Z := None.

(** The initial state of both cards: every field empty. *)
Definition noFilter : FilterState.t := FilterState.mk "" "" "" "".

(** The keys of a filter. *)
Inductive FilterKey : Type := Kmonth | Kdate | Ksender | Kreceiver.

Definition field (k : FilterKey) (f : FilterState.t) : string :=
  match k with
  | Kmonth => FilterState.month f
  | Kdate => FilterState.date f
  | Ksender => FilterState.sender f
  | Kreceiver => FilterState.receiver f
  end.

(** [l1] is [l2] with some elements left out, the others in their order. *)
Inductive Subsequence {A : Type} : list A -> list A -> Prop :=
| Subsequence_nil : Subsequence [] []
| Subsequence_keep x l1 l2 : Subsequence l1 l2 -> Subsequence (x :: l1) (x :: l2)
| Subsequence_drop x l1 l2 : Subsequence l1 l2 -> Subsequence l1 (x :: l2).

(** Sample transactions and a sample filter. *)

Definition txNoTime : Transaction.t :=
  Transaction.mk 1 (Some "VCB") "Nguyen Van A" (Some "Tran Thi B") None (Some "100") "0xa1".

Definition txBadTime : Transaction.t :=
  Transaction.mk 2 None "Le Van C" None (Some "aa/bb/cccc") (Some "50") "0xa2".

Definition txJanuary : Transaction.t :=
  Transaction.mk 3 None "Pham Thi D" None (Some "15/01/2024 10:00:00") (Some "75") "0xa3".

Definition january : FilterState.t := FilterState.mk "2024-01" "" "" "".

Definition withAmount (a : option string) : Transaction.t :=
  Transaction.mk 7 None "Nguyen Van A" None (Some "15/01/2024 10:00:00") a "0xb0".

(** ** Calendar dates *)

Module Calendar.
Import JSDate.

(** The length of month [m] (1 to 12) of year [y]. *)
Definition daysInMonth (y m : Z) : Z :=
  match m with
  | 2 => if isLeap y then 29 else 28
  | 4 | 6 | 9 | 11 => 30
  | _ => 31
  end.

(** The local time value of day [d] of month [m] (1 to 12) of year [y],
    [time] milliseconds after midnight. *)
Definition civilTime (y m d time : Z) : Z :=
  (DayFromYear y + monthStart (m - 1) (isLeap y) + d - 1) * msPerDay + time.

End Calendar.

(** The local time [t] is one of the zone: the offset there is less than a
    day, and no change of offset skips [t], so that the local time of the
    UTC time of [t] is [t] again. On a zone of one offset this is every
    local time. *)
Definition validLocalTime (tza : JSDate.TimeZone) (t : Z) : Prop :=
  Z.abs (tza t false) < JSDate.msPerDay
  /\ JSDate.LocalTime tza (JSDate.UTC tza t) = t.

(** ** The strings DD/MM/YYYY HH:MM:SS

    The inputs the properties of the date normaliser range over: a day, a
    month and a year written with two, two and four digits, and an optional
    time written with two digits per component. *)

Definition digit2 (n : Z) : string :=
  String (JS.digitUnit (n / 10)) (String (JS.digitUnit (n mod 10)) "").

Definition digit4 (n : Z) : string :=
  String (JS.digitUnit (n / 1000))
    (String (JS.digitUnit (n / 100 mod 10))
       (String (JS.digitUnit (n / 10 mod 10))
          (String (JS.digitUnit (n mod 10)) ""))).

(** The optional time token: none, HH:MM or HH:MM:SS. *)
Inductive TimeToken : Type :=
| NoTime
| HourMinute (h mi : Z)
| HourMinuteSecond (h mi s : Z).

Definition hourOf (tok : TimeToken) : Z :=
  match tok with
  | NoTime => 0
  | HourMinute h _ | HourMinuteSecond h _ _ => h
  end.

Definition minuteOf (tok : TimeToken) : Z :=
  match tok with
  | NoTime => 0
  | HourMinute _ mi | HourMinuteSecond _ mi _ => mi
  end.

Definition secondOf (tok : TimeToken) : Z :=
  match tok with
  | HourMinuteSecond _ _ s => s
  | _ => 0
  end.

(** The local time value that day [d] of month [m] of year [y] and the
    time of [tok] stand for. *)
Definition writtenTime (d m y : Z) (tok : TimeToken) : Z :=
  Calendar.civilTime y m d
    (JSDate.MakeTime (hourOf tok) (minuteOf tok) (secondOf tok) 0).

(** Every component is written with two digits. *)
Definition twoDigitTime (tok : TimeToken) : Prop :=
  0 <= hourOf tok <= 99 /\ 0 <= minuteOf tok <= 99 /\ 0 <= secondOf tok <= 99.

(** A time of day: hours below 24, minutes and seconds below 60. *)
Definition validTime (tok : TimeToken) : Prop :=
  0 <= hourOf tok <= 23 /\ 0 <= minuteOf tok <= 59 /\ 0 <= secondOf tok <= 59.

Definition dateToken (d m y : Z) : string :=
  digit2 d ++ String "/" (digit2 m ++ String "/" (digit4 y)).

Definition timeToken (tok : TimeToken) : string :=
  match tok with
  | NoTime => ""
  | HourMinute h mi => digit2 h ++ String ":" (digit2 mi)
  | HourMinuteSecond h mi s =>
      digit2 h ++ String ":" (digit2 mi ++ String ":" (digit2 s))
  end.

(** The string DD/MM/YYYY, followed by a space and the time when there is
    one. *)
Definition render (d m y : Z) (tok : TimeToken) : string :=
  match tok with
  | NoTime => dateToken d m y
  | _ => dateToken d m y ++ String " " (timeToken tok)
  end.

(** [sep] does not occur in [s]. *)
Fixpoint noUnit (sep : ascii) (s : string) : bool :=
  match s with
  | EmptyString => true
  | String c s' => negb (Ascii.eqb c sep) && noUnit sep s'
  end.

Definition headNonWs (s : string) : bool :=
  match s with
  | EmptyString => false
  | String c _ => negb (JS.isWhiteSpace c)
  end.

Fixpoint endsNonWs (s : string) : bool :=
  match s with
  | EmptyString => false
  | String c EmptyString => negb (JS.isWhiteSpace c)
  | String _ s' => endsNonWs s'
  end.

Definition optZ_eqb (a b : option Z) : bool :=
  match a, b with
  | Some x, Some y => x =? y
  | None, None => true
  | _, _ => false
  end.

(** What the parser needs of a token [s] that stands for the number [n]. *)
Definition tokenOk (s : string) (n : Z) : bool :=
  optZ_eqb (JS.parseInt s) (Some n)
  && noUnit "/" s && noUnit " " s && noUnit ":" s
  && headNonWs s && endsNonWs s.

(** Every unit of [s] is white space. *)
Fixpoint allWs (s : string) : bool :=
  match s with
  | EmptyString => true
  | String c s' => JS.isWhiteSpace c && allWs s'
  end.

(** The test of the first branch of the parser: the first token of the
    trimmed string has three parts between slashes. *)
Definition hasThreeDateParts (s : string) : bool :=
  match elem (JS.split " " (JS.trim s)) 0 with
  | Some p0 => (List.length (JS.split "/" p0) =? 3)%nat
  | None => false
  end.

(** A token after the time: no space in it, and no white space at its
    end. *)
Definition isToken (s : string) : bool := noUnit " " s && endsNonWs s.

(** ** React state

    A state hook during one event: the value of the last render, which the
    closures of that render read, and the value the setter calls of the
    event leave for the next render. *)

Module React.

Record Hook (A : Type) : Type := mk { rendered : A; pending : option A }.
Arguments mk {A} _ _.
Arguments rendered {A} _.
Arguments pending {A} _.

Definition atRender {A : Type} (a : A) : Hook A := mk a None.

Definition nextRender {A : Type} (h : Hook A) : A :=
  match pending h with
  | Some v => v
  | None => rendered h
  end.

(** [setState(v)] *)
Definition setState {A : Type} (v : A) (h : Hook A) : Hook A :=
  mk (rendered h) (Some v).

(** [setState(prev => u(prev))] *)
Definition setStateWith {A : Type} (u : A -> A) (h : Hook A) : Hook A :=
  mk (rendered h) (Some (u (nextRender h))).

End React.

(** ** The theme store *)

Inductive Theme : Type := light | dark.

Definition initialTheme : Theme := dark.

Definition toggleTheme (h : React.Hook Theme) : React.Hook Theme :=
  React.setStateWith (fun prev => match prev with light => dark | dark => light end) h.

(** One click on the theme button. *)
Definition clickToggle (theme : Theme) : Theme :=
  React.nextRender (toggleTheme (React.atRender theme)).

(** ** The stat cards *)

Inductive InputType : Type := monthInput | dateInput | textInput.

Module FilterConfig.
Record t : Type := mk {
  key : string;
  label : string;
  type : InputType;
  value : string;
  placeholder : option string
}.
End FilterConfig.

(** [{ ...filter, [key]: value }], as far as the four fields of a filter
    go: another key adds a property that nothing reads. *)
Definition spreadWith (filter : FilterState.t) (key value : string) : FilterState.t :=
  if (key =? "month")%string then
    FilterState.mk value (FilterState.date filter)
      (FilterState.sender filter) (FilterState.receiver filter)
  else if (key =? "date")%string then
    FilterState.mk (FilterState.month filter) value
      (FilterState.sender filter) (FilterState.receiver filter)
  else if (key =? "sender")%string then
    FilterState.mk (FilterState.month filter) (FilterState.date filter)
      value (FilterState.receiver filter)
  else if (key =? "receiver")%string then
    FilterState.mk (FilterState.month filter) (FilterState.date filter)
      (FilterState.sender filter) value
  else filter.

(** The [onFilterChange] the dashboard hands to a card:
    [(key, value) => setFilter({ ...filter, [key]: value })], where [filter]
    is the state of the render. *)
Definition onFilterChange (key value : string)
    (h : React.Hook FilterState.t) : React.Hook FilterState.t :=
  React.setState (spreadWith (React.rendered h) key value) h.

(** The [filters] of the total card. *)
Definition totalCardFilters (totalAmountFilter : FilterState.t) : list FilterConfig.t :=
  [FilterConfig.mk "month" "Filter by Month" monthInput
     (FilterState.month totalAmountFilter) None;
   FilterConfig.mk "date" "Filter by Date" dateInput
     (FilterState.date totalAmountFilter) None].

(** The [filters] of the average card. *)
Definition avgCardFilters (avgAmountFilter : FilterState.t) : list FilterConfig.t :=
  [FilterConfig.mk "sender" "Filter by Sender" textInput
     (FilterState.sender avgAmountFilter) (Some "Enter sender name...")].

(** [filters.some((f) => f.value)] *)
Definition hasActiveFilter (filters : list FilterConfig.t) : bool :=
  existsb (fun f => JS.truthy (FilterConfig.value f)) filters.

(** The [onChange] of the input of the [i]-th filter. *)
Definition changeInput (filters : list FilterConfig.t) (i : nat) (value : string)
    (h : React.Hook FilterState.t) : React.Hook FilterState.t :=
  match nth_error filters i with
  | Some f => onFilterChange (FilterConfig.key f) value h
  | None => h
  end.

(** The [onClick] of Clear All Filters:
    [filters.forEach((f) => onFilterChange(f.key, ""))]. *)
Definition clearAllFilters (filters : list FilterConfig.t)
    (h : React.Hook FilterState.t) : React.Hook FilterState.t :=
  fold_left (fun h' f => onFilterChange (FilterConfig.key f) "" h') filters h.

(** What the user can do on an open card: type into the [i]-th input, or
    press Clear All Filters, which is there when a filter is active. *)
Inductive CardEvent : Type :=
| Change (i : nat) (value : string)
| ClearAll.

(** The filter of a card after an event, [filters] being the card's list
    for the filter of the render. *)
Definition cardEvent (filters : FilterState.t -> list FilterConfig.t)
    (e : CardEvent) (filter : FilterState.t) : FilterState.t :=
  let h := React.atRender filter in
  React.nextRender
    match e with
    | Change i value => changeInput (filters filter) i value h
    | ClearAll =>
        if hasActiveFilter (filters filter) then clearAllFilters (filters filter) h
        else h
    end.

(** The filters of the two cards. *)
Record Cards : Type := mkCards {
  totalAmountFilter : FilterState.t;
  avgAmountFilter : FilterState.t
}.

Definition initialCards : Cards := mkCards noFilter noFilter.

Inductive DashEvent : Type :=
| OnTotalCard (e : CardEvent)
| OnAvgCard (e : CardEvent).

Definition step (st : Cards) (e : DashEvent) : Cards :=
  match e with
  | OnTotalCard e' =>
      mkCards (cardEvent totalCardFilters e' (totalAmountFilter st)) (avgAmountFilter st)
  | OnAvgCard e' =>
      mkCards (totalAmountFilter st) (cardEvent avgCardFilters e' (avgAmountFilter st))
  end.

Definition run (st : Cards) (events : list DashEvent) : Cards :=
  fold_left step events st.

(** The filters the events can lead to: the total card only has month and
    date inputs, the average card only a sender input. *)
Definition cardsInvariant (st : Cards) : Prop :=
  FilterState.sender (totalAmountFilter st) = ""
  /\ FilterState.receiver (totalAmountFilter st) = ""
  /\ FilterState.month (avgAmountFilter st) = ""
  /\ FilterState.date (avgAmountFilter st) = ""
  /\ FilterState.receiver (avgAmountFilter st) = "".

(** ** Fetching the transactions *)

Module Supabase.

Record PostgrestError : Type := mkError {
  message : string;
  details : string;
  hint : option string;
  code : string
}.

(** What the query resolves with, as far as [getTransactions] reads it. *)
Record Response : Type := mkResponse {
  data : option (list Transaction.t);
  error : option PostgrestError
}.

(** A thrown value: an [Error] with its message, or something else. *)
Inductive Thrown : Type :=
| ErrorObject (message : string)
| OtherValue.

(** A settled promise. *)
Inductive Settled (A : Type) : Type :=
| Fulfilled (a : A)
| Rejected (e : Thrown).
Arguments Fulfilled {A} _.
Arguments Rejected {A} _.

(** [getTransactions], from how the query settles. The logging is left
    out. *)
Definition getTransactions (query : Settled Response)
  : Settled (option (list Transaction.t)) :=
  match query with
  | Rejected e => Rejected e
  | Fulfilled r =>
      match error r with
      | Some e =>
          Rejected
            (ErrorObject
               ("Supabase Error: " ++ message e
                ++ (if JS.truthyOpt (hint e)
                    then " (Hint: " ++ JS.ToStringElem (hint e) ++ ")"
                    else "")))
      | None => Fulfilled (data r)
      end
  end.

End Supabase.

(** The three states the effect of the dashboard sets. *)
Record FetchState : Type := mkFetchState {
  transactions : list Transaction.t;
  loading : bool;
  error : option string
}.

Definition initialFetchState : FetchState := mkFetchState [] true None.

(** The state once [fetchTransactions] has run to its end. *)
Definition fetchTransactions (query : Supabase.Settled Supabase.Response)
  : FetchState :=
  match Supabase.getTransactions query with
  | Supabase.Fulfilled data =>
      mkFetchState (match data with Some l => l | None => [] end) false None
  | Supabase.Rejected err =>
      let errorMessage :=
        match err with
        | Supabase.ErrorObject m => m
        | Supabase.OtherValue => "Failed to fetch transactions"
        end in
      mkFetchState [] false (Some errorMessage)
  end.

(** What the component returns. *)
Inductive Screen : Type :=
| LoadingScreen
| ErrorScreen (message : string)
| DashboardScreen (transactions : list Transaction.t).

Definition screen (st : FetchState) : Screen :=
  if loading st then LoadingScreen
  else match error st with
       | Some m => if JS.truthy m then ErrorScreen m else DashboardScreen (transactions st)
       | None => DashboardScreen (transactions st)
       end.

(** * Properties *)

(** ** Filtering *)

Section FilterFacts.

Variable tza : JSDate.TimeZone.
Variable parse : string -> option Z.

Lemma truthy_empty_iff (s : string) : JS.truthy s = false <-> s = "".
Proof. destruct s; simpl; split; congruence. Qed.

Lemma truthy_true_iff (s : string) : JS.truthy s = true <-> s <> "".
Proof. destruct s; simpl; split; congruence. Qed.

Lemma filter_Subsequence {A : Type} (p : A -> bool) (l : list A) :
  Subsequence (List.filter p l) l.
Proof.
  induction l as [| x l IH]; simpl.
  - constructor.
  - destruct (p x); now constructor.
Qed.

Lemma filter_all {A : Type} (p : A -> bool) (l : list A) :
  (forall x, p x = true) -> List.filter p l = l.
Proof.
  intros Hp. induction l as [| x l IH]; simpl; [reflexivity |].
  now rewrite Hp, IH.
Qed.

Lemma keeps_noFilter (t : Transaction.t) : keeps tza parse noFilter t = true.
Proof.
  unfold keeps, noFilter; simpl.
  now destruct (parseTransferDate tza parse (Transaction.transfer_time t)).
Qed.

(** With no parsed date, the month and date fields of the filter are not
    looked at. *)
Lemma keeps_unparseable (f : FilterState.t) (t : Transaction.t) :
  parseTransferDate tza parse (Transaction.transfer_time t) = None ->
  keeps tza parse f t
  = keeps tza parse (FilterState.mk "" "" (FilterState.sender f) (FilterState.receiver f)) t.
Proof.
  intros H. unfold keeps. rewrite H. reflexivity.
Qed.

(** With no receiver, the receiver field of the filter is not looked at. *)
Lemma keeps_no_receiver (f : FilterState.t) (t : Transaction.t) :
  Transaction.receiver t = None ->
  keeps tza parse f t
  = keeps tza parse (FilterState.mk (FilterState.month f) (FilterState.date f)
             (FilterState.sender f) "") t.
Proof.
  intros H. unfold keeps. rewrite H. simpl.
  now rewrite andb_false_r.
Qed.

(** Emptying one field of a filter keeps every transaction it kept. *)
Lemma keeps_antimonotone (k : FilterKey) (f g : FilterState.t) (t : Transaction.t) :
  (forall k', k' <> k -> field k' f = field k' g) ->
  field k f = "" ->
  keeps tza parse g t = true -> keeps tza parse f t = true.
Proof.
  intros Hagree Hempty.
  destruct f as [fm fd fs fr], g as [gm gd gs gr].
  assert (Hm := Hagree Kmonth). assert (Hd := Hagree Kdate).
  assert (Hs := Hagree Ksender). assert (Hr := Hagree Kreceiver).
  unfold keeps; destruct k; simpl in *; subst;
    try rewrite <- Hm by discriminate; try rewrite <- Hd by discriminate;
    try rewrite <- Hs by discriminate; try rewrite <- Hr by discriminate;
    simpl; intros Hk.
  - destruct (parseTransferDate tza parse (Transaction.transfer_time t)); [| exact Hk].
    destruct (JS.truthy gm && _); [discriminate | exact Hk].
  - destruct (parseTransferDate tza parse (Transaction.transfer_time t)); [| exact Hk].
    destruct (JS.truthy fm && _); [discriminate |].
    destruct (JS.truthy gd && _); [discriminate | exact Hk].
  - destruct (match parseTransferDate _ _ _ with Some _ => _ | None => false end);
      [discriminate |].
    destruct (match parseTransferDate _ _ _ with Some _ => _ | None => false end);
      [discriminate |].
    destruct (JS.truthy gs && _); [discriminate | exact Hk].
  - destruct (match parseTransferDate _ _ _ with Some _ => _ | None => false end);
      [discriminate |].
    destruct (match parseTransferDate _ _ _ with Some _ => _ | None => false end);
      [discriminate |].
    destruct (JS.truthy fs && _); [discriminate | reflexivity].
Qed.

End FilterFacts.

Lemma filter_le_Subsequence {A : Type} (p q : A -> bool) (l : list A) :
  (forall x, p x = true -> q x = true) ->
  Subsequence (List.filter p l) (List.filter q l).
Proof.
  intros Hpq. induction l as [| x l IH]; simpl.
  - constructor.
  - destruct (p x) eqn:Hp.
    + rewrite (Hpq x Hp). now constructor.
    + destruct (q x); [now constructor | exact IH].
Qed.

(** C1, as the code has it: for a transaction whose transfer_time does not
    parse, the month and date fields of the filter are skipped; it is in the
    result exactly when it is in the result of the same filter with month
    and date emptied, so only the sender and receiver fields decide. *)
Theorem unparseable_date_skips_month_and_date
    (tza : JSDate.TimeZone) (parse : string -> option Z)
    (transactions : list Transaction.t) (f : FilterState.t) (t : Transaction.t) :
  parseTransferDate tza parse (Transaction.transfer_time t) = None ->
  (In t (filterTransactions tza parse transactions f)
   <-> In t (filterTransactions tza parse transactions
               (FilterState.mk "" "" (FilterState.sender f) (FilterState.receiver f)))).
Proof.
  intros H. unfold filterTransactions. rewrite !filter_In.
  now rewrite (keeps_unparseable tza parse f t H).
Qed.

Lemma unparseable_date_skips_month_and_date_witness :
  In txBadTime (filterTransactions ict parseNothing [txNoTime; txBadTime; txJanuary] january)
  <-> In txBadTime (filterTransactions ict parseNothing [txNoTime; txBadTime; txJanuary]
                      (FilterState.mk "" "" "" "")).
Proof.
  apply (unparseable_date_skips_month_and_date ict parseNothing
           [txNoTime; txBadTime; txJanuary] january txBadTime).
  reflexivity.
Defined.

(** C1 fails as stated: with the month filter set to 2024-01 and with the
    date filter set to 2024-01-15, the two transactions whose transfer_time
    does not parse (absent, and "aa/bb/cccc") stay in the result. *)
Lemma unparseable_date_is_kept :
  parseTransferDate ict parseNothing (Transaction.transfer_time txNoTime) = None
  /\ parseTransferDate ict parseNothing (Transaction.transfer_time txBadTime) = None
  /\ JS.truthy (FilterState.month january) = true
  /\ filterTransactions ict parseNothing [txNoTime; txBadTime] january
     = [txNoTime; txBadTime]
  /\ filterTransactions ict parseNothing [txNoTime; txBadTime]
       (FilterState.mk "" "2024-01-15" "" "")
     = [txNoTime; txBadTime].
Proof. repeat split. Qed.

(** C4, as the code has it: for a transaction with no receiver, the receiver
    field of the filter is skipped; it is in the result exactly when it is in
    the result of the same filter with the receiver field emptied. *)
Theorem absent_receiver_skips_receiver_filter
    (tza : JSDate.TimeZone) (parse : string -> option Z)
    (transactions : list Transaction.t) (f : FilterState.t) (t : Transaction.t) :
  Transaction.receiver t = None ->
  (In t (filterTransactions tza parse transactions f)
   <-> In t (filterTransactions tza parse transactions
               (FilterState.mk (FilterState.month f) (FilterState.date f)
                  (FilterState.sender f) ""))).
Proof.
  intros H. unfold filterTransactions. rewrite !filter_In.
  now rewrite (keeps_no_receiver tza parse f t H).
Qed.

Lemma absent_receiver_skips_receiver_filter_witness :
  In txJanuary (filterTransactions ict parseNothing [txNoTime; txJanuary]
                  (FilterState.mk "2024-01" "" "" "tran"))
  <-> In txJanuary (filterTransactions ict parseNothing [txNoTime; txJanuary]
                      (FilterState.mk "2024-01" "" "" "")).
Proof.
  apply (absent_receiver_skips_receiver_filter ict parseNothing
           [txNoTime; txJanuary] (FilterState.mk "2024-01" "" "" "tran") txJanuary).
  reflexivity.
Defined.

(** C4 fails as stated: a transaction with no receiver stays in the result
    of a filter whose receiver field is "tran". *)
Lemma absent_receiver_is_kept :
  Transaction.receiver txJanuary = None
  /\ JS.truthy (FilterState.receiver (FilterState.mk "" "" "" "tran")) = true
  /\ filterTransactions ict parseNothing [txJanuary] (FilterState.mk "" "" "" "tran")
     = [txJanuary].
Proof. repeat split. Qed.

(** C6: in the combined filter, month and date are the total card's value
    when it is not empty and the average card's value otherwise, sender is
    the average card's, receiver is empty; total month 2024-01 over average
    month 2024-03 gives 2024-01, and an empty total month gives 2024-03. *)
Theorem combinedFilter_priority (total avg : FilterState.t) :
  FilterState.month (combinedFilter total avg)
  = (if (FilterState.month total =? "")%string
     then FilterState.month avg else FilterState.month total)
  /\ FilterState.date (combinedFilter total avg)
     = (if (FilterState.date total =? "")%string
        then FilterState.date avg else FilterState.date total)
  /\ FilterState.sender (combinedFilter total avg) = FilterState.sender avg
  /\ FilterState.receiver (combinedFilter total avg) = ""
  /\ FilterState.month
       (combinedFilter (FilterState.mk "2024-01" (FilterState.date total)
                          (FilterState.sender total) (FilterState.receiver total))
                       (FilterState.mk "2024-03" (FilterState.date avg)
                          (FilterState.sender avg) (FilterState.receiver avg)))
     = "2024-01"
  /\ FilterState.month
       (combinedFilter (FilterState.mk "" (FilterState.date total)
                          (FilterState.sender total) (FilterState.receiver total))
                       (FilterState.mk "2024-03" (FilterState.date avg)
                          (FilterState.sender avg) (FilterState.receiver avg)))
     = "2024-03".
Proof.
  destruct total as [tm td ts tr], avg as [am ad asd ar].
  unfold combinedFilter, JS.orElse; simpl.
  repeat split; [destruct tm | destruct td]; reflexivity.
Qed.

(** C9: the filter with every field empty returns the list as it is, and
    every filter returns a subsequence of the list, in the list's order. *)
Theorem filterTransactions_identity_and_subsequence
    (tza : JSDate.TimeZone) (parse : string -> option Z) (transactions : list Transaction.t) :
  filterTransactions tza parse transactions noFilter = transactions
  /\ List.length (filterTransactions tza parse transactions noFilter)
     = List.length transactions
  /\ forall f : FilterState.t,
       Subsequence (filterTransactions tza parse transactions f) transactions.
Proof.
  assert (H : filterTransactions tza parse transactions noFilter = transactions)
    by (apply filter_all, keeps_noFilter).
  split; [exact H |]. split; [now rewrite H |].
  intros f. apply filter_Subsequence.
Qed.

(** C10: when [f] and [g] agree on every field but one, empty in [f] and
    not in [g], every transaction of the result for [g] is in the result for
    [f]; the result for [g] is a subsequence of the result for [f]. *)
Theorem filterTransactions_antimonotone
    (tza : JSDate.TimeZone) (parse : string -> option Z) (transactions : list Transaction.t)
    (f g : FilterState.t) (k : FilterKey) :
  (forall k', k' <> k -> field k' f = field k' g) ->
  field k f = "" ->
  field k g <> "" ->
  (forall t, In t (filterTransactions tza parse transactions g) ->
             In t (filterTransactions tza parse transactions f))
  /\ Subsequence (filterTransactions tza parse transactions g)
                 (filterTransactions tza parse transactions f).
Proof.
  intros Hagree Hf _. split.
  - intros t. unfold filterTransactions. rewrite !filter_In.
    intros [Hin Hk]. split; [exact Hin |].
    exact (keeps_antimonotone tza parse k f g t Hagree Hf Hk).
  - apply filter_le_Subsequence. intros t.
    exact (keeps_antimonotone tza parse k f g t Hagree Hf).
Qed.

Lemma filterTransactions_antimonotone_witness :
  (forall t, In t (filterTransactions ict parseNothing [txNoTime; txJanuary]
                     (FilterState.mk "2024-01" "" "" "tran")) ->
             In t (filterTransactions ict parseNothing [txNoTime; txJanuary] january))
  /\ Subsequence (filterTransactions ict parseNothing [txNoTime; txJanuary]
                    (FilterState.mk "2024-01" "" "" "tran"))
                 (filterTransactions ict parseNothing [txNoTime; txJanuary] january).
Proof.
  apply (filterTransactions_antimonotone ict parseNothing [txNoTime; txJanuary]
           january (FilterState.mk "2024-01" "" "" "tran") Kreceiver).
  - intros [] H; try reflexivity. now elim H.
  - reflexivity.
  - discriminate.
Defined.

(** ** Aggregates *)

Lemma add_NaN_l (x : JSNumber.Number) : JSNumber.add JSNumber.NaN x = JSNumber.NaN.
Proof. reflexivity. Qed.

Lemma add_NaN_r (x : JSNumber.Number) : JSNumber.add x JSNumber.NaN = JSNumber.NaN.
Proof. destruct x; reflexivity. Qed.

Section AggregateFacts.

Variable tza : JSDate.TimeZone.
Variable parse : string -> option Z.

Lemma fold_addAmount_NaN (l : list Transaction.t) :
  fold_left addAmount l JSNumber.NaN = JSNumber.NaN.
Proof.
  induction l as [| t l IH]; cbn [fold_left]; [reflexivity |].
  replace (addAmount JSNumber.NaN t) with JSNumber.NaN by reflexivity.
  exact IH.
Qed.

(** Once one amount of the list parses to NaN, the sum is NaN. *)
Lemma sumAmounts_NaN (l : list Transaction.t) (t : Transaction.t) :
  In t l ->
  JSNumber.parseFloat (amountOrZero t) = JSNumber.NaN ->
  sumAmounts l = JSNumber.NaN.
Proof.
  intros Hin Hnan.
  destruct (in_split t l Hin) as [l1 [l2 ->]].
  unfold sumAmounts.
  rewrite fold_left_app. cbn [fold_left].
  replace (addAmount (fold_left addAmount l1 JSNumber.zero) t) with JSNumber.NaN
    by (unfold addAmount; now rewrite Hnan, add_NaN_r).
  apply fold_addAmount_NaN.
Qed.

End AggregateFacts.

(** C7: when the filter leaves no transaction, and so over an empty list,
    the sum is 0 and the average is 0, which is not NaN; when it leaves two
    transactions with amounts "100" and "50" the sum is 150 and the average
    is 75. *)
Theorem aggregates_empty_and_two
    (tza : JSDate.TimeZone) (parse : string -> option Z)
    (transactions : list Transaction.t) (f : FilterState.t) :
  (totalAmountStats tza parse [] f = JSNumber.zero
   /\ avgAmountStats tza parse [] f = JSNumber.zero)
  /\ (filterTransactions tza parse transactions f = [] ->
      totalAmountStats tza parse transactions f = JSNumber.zero
      /\ JSNumber.integerValue (totalAmountStats tza parse transactions f) = Some 0
      /\ avgAmountStats tza parse transactions f = JSNumber.zero
      /\ JSNumber.integerValue (avgAmountStats tza parse transactions f) = Some 0
      /\ JSNumber.isNaN (avgAmountStats tza parse transactions f) = false)
  /\ (forall t1 t2 : Transaction.t,
        filterTransactions tza parse transactions f = [t1; t2] ->
        Transaction.amount t1 = Some "100" ->
        Transaction.amount t2 = Some "50" ->
        totalAmountStats tza parse transactions f = JSNumber.ofZ 150
        /\ JSNumber.integerValue (totalAmountStats tza parse transactions f) = Some 150
        /\ avgAmountStats tza parse transactions f = JSNumber.ofZ 75
        /\ JSNumber.integerValue (avgAmountStats tza parse transactions f) = Some 75).
Proof.
  split; [split; reflexivity |]. split.
  - intros H. unfold totalAmountStats, avgAmountStats. rewrite H.
    repeat split.
  - intros t1 t2 H A1 A2. unfold totalAmountStats, avgAmountStats. rewrite H.
    unfold sumAmounts. cbn [fold_left List.length].
    unfold addAmount, amountOrZero. rewrite A1, A2.
    repeat split; vm_compute; reflexivity.
Qed.

Lemma aggregates_empty_and_two_witness :
  (totalAmountStats ict parseNothing [txNoTime; txJanuary; txBadTime]
     (FilterState.mk "" "" "zzz" "") = JSNumber.zero
   /\ avgAmountStats ict parseNothing [txNoTime; txJanuary; txBadTime]
        (FilterState.mk "" "" "zzz" "") = JSNumber.zero)
  /\ (totalAmountStats ict parseNothing [txNoTime; txJanuary; txBadTime]
        (FilterState.mk "2024-02" "" "" "") = JSNumber.ofZ 150
      /\ avgAmountStats ict parseNothing [txNoTime; txJanuary; txBadTime]
           (FilterState.mk "2024-02" "" "" "") = JSNumber.ofZ 75).
Proof.
  split.
  - destruct (aggregates_empty_and_two ict parseNothing
                [txNoTime; txJanuary; txBadTime] (FilterState.mk "" "" "zzz" ""))
      as (_ & Hempty & _).
    destruct Hempty as (H1 & _ & H2 & _); [reflexivity |]. now split.
  - destruct (aggregates_empty_and_two ict parseNothing
                [txNoTime; txJanuary; txBadTime] (FilterState.mk "2024-02" "" "" ""))
      as (_ & _ & Htwo).
    destruct (Htwo txNoTime txBadTime) as (H1 & _ & H2 & _);
      [reflexivity | reflexivity | reflexivity |]. now split.
Defined.

(** C3 on the code: a kept transaction whose amount is "abc" makes the
    total NaN, whatever the other amounts are. *)
Theorem malformed_amount_makes_total_NaN
    (tza : JSDate.TimeZone) (parse : string -> option Z)
    (transactions : list Transaction.t) (f : FilterState.t) (t : Transaction.t) :
  In t (filterTransactions tza parse transactions f) ->
  Transaction.amount t = Some "abc" ->
  totalAmountStats tza parse transactions f = JSNumber.NaN
  /\ avgAmountStats tza parse transactions f = JSNumber.NaN.
Proof.
  intros Hin Ha.
  assert (Hs : sumAmounts (filterTransactions tza parse transactions f) = JSNumber.NaN).
  { apply (sumAmounts_NaN _ t Hin). unfold amountOrZero. now rewrite Ha. }
  split; [exact Hs |].
  unfold avgAmountStats. rewrite Hs.
  destruct (filterTransactions tza parse transactions f) as [| x l]; [contradiction |].
  reflexivity.
Qed.

Lemma malformed_amount_makes_total_NaN_witness :
  totalAmountStats ict parseNothing
    [withAmount (Some "100"); withAmount (Some "abc"); withAmount (Some "50")] noFilter
  = JSNumber.NaN
  /\ avgAmountStats ict parseNothing
       [withAmount (Some "100"); withAmount (Some "abc"); withAmount (Some "50")] noFilter
     = JSNumber.NaN.
Proof.
  apply (malformed_amount_makes_total_NaN ict parseNothing
           [withAmount (Some "100"); withAmount (Some "abc"); withAmount (Some "50")]
           noFilter (withAmount (Some "abc"))).
  - vm_compute. right. left. reflexivity.
  - reflexivity.
Defined.

(** ** Calendar arithmetic *)

Module CalendarFacts.
Import JSDate Calendar.

Ltac month_cases m :=
  let Hc := fresh "Hc" in
  assert (Hc : m = 1 \/ m = 2 \/ m = 3 \/ m = 4 \/ m = 5 \/ m = 6 \/ m = 7
               \/ m = 8 \/ m = 9 \/ m = 10 \/ m = 11 \/ m = 12) by lia;
  repeat (destruct Hc as [Hc | Hc]); subst m;
  match goal with
  | |- context [monthStart (?k - 1)] =>
      let v := eval vm_compute in (k - 1) in change (k - 1) with v
  end;
  cbv beta iota zeta delta [monthStart daysInMonth].

Lemma DayFromYear_succ (y : Z) : DayFromYear (y + 1) = DayFromYear y + DaysInYear y.
Proof.
  unfold DayFromYear, DaysInYear, isLeap.
  destruct (Z.eqb_spec (y mod 4) 0); destruct (Z.eqb_spec (y mod 100) 0);
    destruct (Z.eqb_spec (y mod 400) 0); cbn [negb];
    Z.to_euclidean_division_equations; lia.
Qed.

Lemma DayFromYear_mono (a b : Z) : a <= b -> DayFromYear a <= DayFromYear b.
Proof.
  intros H. unfold DayFromYear. Z.to_euclidean_division_equations; lia.
Qed.

Lemma YearFromDay_spec (d : Z) :
  DayFromYear (YearFromDay d) <= d < DayFromYear (YearFromDay d + 1).
Proof.
  unfold YearFromDay.
  destruct (Z.ltb_spec d (DayFromYear (1970 + 400 * d / 146097))).
  - unfold DayFromYear in *. Z.to_euclidean_division_equations; lia.
  - destruct (Z.leb_spec (DayFromYear (1970 + 400 * d / 146097 + 1)) d).
    + unfold DayFromYear in *. Z.to_euclidean_division_equations; lia.
    + lia.
Qed.

(** [YearFromDay d] is the only year whose days include [d]. *)
Lemma YearFromDay_unique (y d : Z) :
  DayFromYear y <= d < DayFromYear (y + 1) -> YearFromDay d = y.
Proof.
  intros Hy. pose proof (YearFromDay_spec d) as Hs.
  destruct (Z.lt_trichotomy (YearFromDay d) y) as [Hlt | [Heq | Hgt]].
  - pose proof (DayFromYear_mono (YearFromDay d + 1) y ltac:(lia)). lia.
  - exact Heq.
  - pose proof (DayFromYear_mono (y + 1) (YearFromDay d) ltac:(lia)). lia.
Qed.

Lemma Day_civil (dayv time : Z) :
  0 <= time < msPerDay -> Day (dayv * msPerDay + time) = dayv.
Proof.
  intros H. unfold Day, msPerDay in *.
  Z.to_euclidean_division_equations; lia.
Qed.

Lemma monthStart_bounds (y m d : Z) :
  1 <= m <= 12 -> 1 <= d <= daysInMonth y m ->
  0 <= monthStart (m - 1) (isLeap y) + d - 1 < DaysInYear y.
Proof.
  intros Hm. unfold DaysInYear.
  month_cases m; destruct (isLeap y); lia.
Qed.

Section Civil.

Variables y m d time : Z.
Hypothesis Hm : 1 <= m <= 12.
Hypothesis Hd : 1 <= d <= daysInMonth y m.
Hypothesis Htime : 0 <= time < msPerDay.

Lemma Day_civilTime :
  Day (civilTime y m d time) = DayFromYear y + monthStart (m - 1) (isLeap y) + d - 1.
Proof. unfold civilTime. now apply Day_civil. Qed.

Lemma YearFromTime_civilTime : YearFromTime (civilTime y m d time) = y.
Proof.
  unfold YearFromTime. rewrite Day_civilTime.
  apply YearFromDay_unique. rewrite DayFromYear_succ.
  pose proof (monthStart_bounds y m d Hm Hd). lia.
Qed.

Lemma DayWithinYear_civilTime :
  DayWithinYear (civilTime y m d time) = monthStart (m - 1) (isLeap y) + d - 1.
Proof.
  unfold DayWithinYear. rewrite YearFromTime_civilTime, Day_civilTime. lia.
Qed.

Lemma MonthFromTime_civilTime : MonthFromTime (civilTime y m d time) = m - 1.
Proof.
  unfold MonthFromTime, InLeapYear.
  rewrite DayWithinYear_civilTime, YearFromTime_civilTime.
  revert Hd.
  month_cases m; destruct (isLeap y); intros Hd';
    repeat match goal with
           | |- context [?a <? ?b] => destruct (Z.ltb_spec a b); try lia
           end.
Qed.

Lemma DateFromTime_civilTime : DateFromTime (civilTime y m d time) = d.
Proof.
  unfold DateFromTime, InLeapYear.
  rewrite MonthFromTime_civilTime, DayWithinYear_civilTime, YearFromTime_civilTime.
  revert Hd.
  month_cases m; destruct (isLeap y); intros Hd'; lia.
Qed.

End Civil.

End CalendarFacts.

(** ** Reading DD/MM/YYYY HH:MM:SS *)

Section StringFacts.

Lemma split_no_sep (sep : ascii) (a : string) :
  noUnit sep a = true -> JS.split sep a = [a].
Proof.
  induction a as [| c a IH]; simpl; [reflexivity |].
  destruct (Ascii.eqb c sep); simpl; [discriminate |].
  intros H. now rewrite (IH H).
Qed.

Lemma split_app_sep (sep : ascii) (a b : string) :
  noUnit sep a = true -> JS.split sep (a ++ String sep b) = a :: JS.split sep b.
Proof.
  induction a as [| c a IH]; simpl.
  - now rewrite Ascii.eqb_refl.
  - destruct (Ascii.eqb c sep); simpl; [discriminate |].
    intros H. now rewrite (IH H).
Qed.

Lemma noUnit_app (sep : ascii) (a b : string) :
  noUnit sep (a ++ b) = noUnit sep a && noUnit sep b.
Proof.
  induction a as [| c a IH]; simpl; [reflexivity |].
  now rewrite IH, andb_assoc.
Qed.

Lemma trimStart_id (s : string) : headNonWs s = true -> JS.trimStart s = s.
Proof.
  destruct s as [| c s]; simpl; [discriminate |].
  now destruct (JS.isWhiteSpace c).
Qed.

Lemma trimEnd_id (s : string) : endsNonWs s = true -> JS.trimEnd s = s.
Proof.
  induction s as [| c s IH]; [discriminate |].
  destruct s as [| c' s'].
  - simpl. now destruct (JS.isWhiteSpace c).
  - intros H. change (endsNonWs (String c' s') = true) in H.
    cbn [JS.trimEnd] in *. rewrite (IH H). reflexivity.
Qed.

Lemma headNonWs_app (a b : string) :
  headNonWs a = true -> headNonWs (a ++ b) = true.
Proof. destruct a; simpl; [discriminate | trivial]. Qed.

Lemma endsNonWs_app (a b : string) :
  endsNonWs b = true -> endsNonWs (a ++ b) = true.
Proof.
  intros Hb. induction a as [| c a IH]; simpl; [exact Hb |].
  destruct (a ++ b) eqn:E; [| exact IH].
  destruct a; simpl in E; [subst b |]; discriminate.
Qed.

Lemma endsNonWs_cons (c : ascii) (b : string) :
  endsNonWs b = true -> endsNonWs (String c b) = true.
Proof. destruct b; [discriminate | trivial]. Qed.

Lemma endsNonWs_app_sep (a : string) (c : ascii) (b : string) :
  endsNonWs b = true -> endsNonWs (a ++ String c b) = true.
Proof. intros H. now apply endsNonWs_app, endsNonWs_cons. Qed.

(** What the parser needs of the code unit of a digit. *)
Lemma digitUnit_facts (x : Z) :
  0 <= x <= 9 ->
  JS.digitValue (JS.digitUnit x) = Some x
  /\ JS.isWhiteSpace (JS.digitUnit x) = false
  /\ Ascii.eqb (JS.digitUnit x) "/" = false
  /\ Ascii.eqb (JS.digitUnit x) " " = false
  /\ Ascii.eqb (JS.digitUnit x) ":" = false
  /\ forall r, JS.parseInt (String (JS.digitUnit x) r)
               = match JS.readDigits (String (JS.digitUnit x) r) None with
                 | None => None
                 | Some n => Some (1 * n)
                 end.
Proof.
  intros H.
  assert (Hc : x = 0 \/ x = 1 \/ x = 2 \/ x = 3 \/ x = 4 \/ x = 5 \/ x = 6
               \/ x = 7 \/ x = 8 \/ x = 9) by lia.
  repeat (destruct Hc as [Hc | Hc]); subst x; repeat split.
Qed.

Lemma digit2_ok (n : Z) : 0 <= n <= 99 -> tokenOk (digit2 n) n = true.
Proof.
  intros H.
  assert (H1 : 0 <= n / 10 <= 9) by (Z.to_euclidean_division_equations; lia).
  assert (H2 : 0 <= n mod 10 <= 9) by (Z.to_euclidean_division_equations; lia).
  destruct (digitUnit_facts _ H1) as (V1 & W1 & S1 & P1 & C1 & I1).
  destruct (digitUnit_facts _ H2) as (V2 & W2 & S2 & P2 & C2 & _).
  unfold tokenOk, digit2. rewrite I1.
  cbn [JS.readDigits noUnit headNonWs endsNonWs].
  rewrite V1, V2, W1, W2, S1, S2, P1, P2, C1, C2.
  cbn [negb andb optZ_eqb].
  rewrite !andb_true_r. apply Z.eqb_eq.
  Z.to_euclidean_division_equations; lia.
Qed.

Lemma digit4_ok (n : Z) : 0 <= n <= 9999 -> tokenOk (digit4 n) n = true.
Proof.
  intros H.
  assert (H1 : 0 <= n / 1000 <= 9) by (Z.to_euclidean_division_equations; lia).
  assert (H2 : 0 <= n / 100 mod 10 <= 9) by (Z.to_euclidean_division_equations; lia).
  assert (H3 : 0 <= n / 10 mod 10 <= 9) by (Z.to_euclidean_division_equations; lia).
  assert (H4 : 0 <= n mod 10 <= 9) by (Z.to_euclidean_division_equations; lia).
  destruct (digitUnit_facts _ H1) as (V1 & W1 & S1 & P1 & C1 & I1).
  destruct (digitUnit_facts _ H2) as (V2 & W2 & S2 & P2 & C2 & _).
  destruct (digitUnit_facts _ H3) as (V3 & W3 & S3 & P3 & C3 & _).
  destruct (digitUnit_facts _ H4) as (V4 & W4 & S4 & P4 & C4 & _).
  unfold tokenOk, digit4. rewrite I1.
  cbn [JS.readDigits noUnit headNonWs endsNonWs].
  rewrite V1, V2, V3, V4, W1, W4, S1, S2, S3, S4, P1, P2, P3, P4, C1, C2, C3, C4.
  cbn [negb andb optZ_eqb].
  rewrite !andb_true_r. apply Z.eqb_eq.
  Z.to_euclidean_division_equations; lia.
Qed.

Lemma tokenOk_elim (s : string) (n : Z) :
  tokenOk s n = true ->
  JS.parseInt s = Some n
  /\ noUnit "/" s = true /\ noUnit " " s = true /\ noUnit ":" s = true
  /\ headNonWs s = true /\ endsNonWs s = true.
Proof.
  unfold tokenOk. rewrite !andb_true_iff.
  intros [[[[[Hp H1] H2] H3] H4] H5]. repeat split; try assumption.
  destruct (JS.parseInt s) as [x |]; simpl in Hp; [| discriminate].
  apply Z.eqb_eq in Hp. now subst.
Qed.

End StringFacts.

Section ParseFacts.

Variable tza : JSDate.TimeZone.
Variable parse : string -> option Z.

Variables d m y : Z.
Hypothesis Hd : 0 <= d <= 99.
Hypothesis Hm : 0 <= m <= 99.
Hypothesis Hy : 0 <= y <= 9999.

Lemma split_dateToken :
  JS.split "/" (dateToken d m y) = [digit2 d; digit2 m; digit4 y].
Proof.
  destruct (tokenOk_elim _ _ (digit2_ok d Hd)) as (_ & Hd1 & _).
  destruct (tokenOk_elim _ _ (digit2_ok m Hm)) as (_ & Hm1 & _).
  destruct (tokenOk_elim _ _ (digit4_ok y Hy)) as (_ & Hy1 & _).
  unfold dateToken.
  rewrite (split_app_sep _ _ _ Hd1), (split_app_sep _ _ _ Hm1), (split_no_sep _ _ Hy1).
  reflexivity.
Qed.

Lemma dateToken_no_space : noUnit " " (dateToken d m y) = true.
Proof.
  destruct (tokenOk_elim _ _ (digit2_ok d Hd)) as (_ & _ & Hd1 & _).
  destruct (tokenOk_elim _ _ (digit2_ok m Hm)) as (_ & _ & Hm1 & _).
  destruct (tokenOk_elim _ _ (digit4_ok y Hy)) as (_ & _ & Hy1 & _).
  unfold dateToken. rewrite noUnit_app. cbn [noUnit]. rewrite noUnit_app. cbn [noUnit].
  now rewrite Hd1, Hm1, Hy1.
Qed.

Lemma dateToken_head : headNonWs (dateToken d m y) = true.
Proof.
  destruct (tokenOk_elim _ _ (digit2_ok d Hd)) as (_ & _ & _ & _ & Hd1 & _).
  now apply headNonWs_app.
Qed.

Lemma dateToken_end : endsNonWs (dateToken d m y) = true.
Proof.
  destruct (tokenOk_elim _ _ (digit4_ok y Hy)) as (_ & _ & _ & _ & _ & Hy1).
  unfold dateToken. now apply endsNonWs_app_sep, endsNonWs_app_sep.
Qed.

Variable tok : TimeToken.
Hypothesis Htok : twoDigitTime tok.

Lemma timeToken_end : tok <> NoTime -> endsNonWs (timeToken tok) = true.
Proof.
  destruct Htok as (Hh & Hmi & Hs).
  destruct tok as [| h mi | h mi s]; cbn [timeToken hourOf minuteOf secondOf] in *;
    intros Hne; [congruence | |].
  - destruct (tokenOk_elim _ _ (digit2_ok mi Hmi)) as (_ & _ & _ & _ & _ & H1).
    now apply endsNonWs_app_sep.
  - destruct (tokenOk_elim _ _ (digit2_ok s Hs)) as (_ & _ & _ & _ & _ & H1).
    now apply endsNonWs_app_sep, endsNonWs_app_sep.
Qed.

Lemma timeToken_no_space : noUnit " " (timeToken tok) = true.
Proof.
  destruct Htok as (Hh & Hmi & Hs).
  destruct tok as [| h mi | h mi s]; cbn [timeToken hourOf minuteOf secondOf] in *;
    [reflexivity | |].
  - destruct (tokenOk_elim _ _ (digit2_ok h Hh)) as (_ & _ & H1 & _).
    destruct (tokenOk_elim _ _ (digit2_ok mi Hmi)) as (_ & _ & H2 & _).
    rewrite noUnit_app. cbn [noUnit]. now rewrite H1, H2.
  - destruct (tokenOk_elim _ _ (digit2_ok h Hh)) as (_ & _ & H1 & _).
    destruct (tokenOk_elim _ _ (digit2_ok mi Hmi)) as (_ & _ & H2 & _).
    destruct (tokenOk_elim _ _ (digit2_ok s Hs)) as (_ & _ & H3 & _).
    rewrite noUnit_app. cbn [noUnit]. rewrite noUnit_app. cbn [noUnit].
    now rewrite H1, H2, H3.
Qed.

Lemma split_timeToken :
  JS.split ":" (timeToken tok)
  = match tok with
    | NoTime => [""]
    | HourMinute h mi => [digit2 h; digit2 mi]
    | HourMinuteSecond h mi s => [digit2 h; digit2 mi; digit2 s]
    end.
Proof.
  destruct Htok as (Hh & Hmi & Hs).
  destruct tok as [| h mi | h mi s]; cbn [timeToken hourOf minuteOf secondOf] in *;
    [reflexivity | |].
  - destruct (tokenOk_elim _ _ (digit2_ok h Hh)) as (_ & _ & _ & H1 & _).
    destruct (tokenOk_elim _ _ (digit2_ok mi Hmi)) as (_ & _ & _ & H2 & _).
    now rewrite (split_app_sep _ _ _ H1), (split_no_sep _ _ H2).
  - destruct (tokenOk_elim _ _ (digit2_ok h Hh)) as (_ & _ & _ & H1 & _).
    destruct (tokenOk_elim _ _ (digit2_ok mi Hmi)) as (_ & _ & _ & H2 & _).
    destruct (tokenOk_elim _ _ (digit2_ok s Hs)) as (_ & _ & _ & H3 & _).
    now rewrite (split_app_sep _ _ _ H1), (split_app_sep _ _ _ H2), (split_no_sep _ _ H3).
Qed.

Lemma trim_render : JS.trim (render d m y tok) = render d m y tok.
Proof.
  unfold JS.trim.
  assert (Hh : headNonWs (render d m y tok) = true).
  { destruct tok; cbn [render]; [| apply headNonWs_app ..]; apply dateToken_head. }
  rewrite (trimStart_id _ Hh). apply trimEnd_id.
  pose proof timeToken_end as He.
  destruct tok as [| h mi | h mi s]; cbn [render].
  - apply dateToken_end.
  - apply endsNonWs_app_sep, He. discriminate.
  - apply endsNonWs_app_sep, He. discriminate.
Qed.

Lemma split_render :
  JS.split " " (render d m y tok)
  = match tok with
    | NoTime => [dateToken d m y]
    | _ => [dateToken d m y; timeToken tok]
    end.
Proof.
  pose proof timeToken_no_space as Ht.
  destruct tok as [| h mi | h mi s]; cbn [render].
  - apply split_no_sep, dateToken_no_space.
  - now rewrite (split_app_sep _ _ _ dateToken_no_space), (split_no_sep _ _ Ht).
  - now rewrite (split_app_sep _ _ _ dateToken_no_space), (split_no_sep _ _ Ht).
Qed.

(** On DD/MM/YYYY with an optional HH:MM or HH:MM:SS, the parser hands the
    numbers written to the Date constructor, day first and the month
    0-based, and keeps the Date unless it is invalid. *)
Lemma parseTransferDate_render :
  parseTransferDate tza parse (Some (render d m y tok))
  = let date := JSDate.construct tza (Some y) (Some (m - 1)) (Some d)
                  (Some (hourOf tok)) (Some (minuteOf tok)) (Some (secondOf tok)) in
    if JSDate.isNaN (JSDate.getTime date) then None else Some date.
Proof.
  destruct (tokenOk_elim _ _ (digit2_ok d Hd)) as (Hpd & _).
  destruct (tokenOk_elim _ _ (digit2_ok m Hm)) as (Hpm & _).
  destruct (tokenOk_elim _ _ (digit4_ok y Hy)) as (Hpy & _).
  assert (Htr : JS.truthy (render d m y tok) = true) by (now destruct tok).
  unfold parseTransferDate.
  rewrite Htr, trim_render, split_render. cbn [negb].
  pose proof split_timeToken as Hst.
  destruct Htok as (Hh & Hmi & Hs).
  destruct tok as [| h mi | h mi s];
    cbn [List.length Nat.leb Nat.eqb elem nth_error andb JS.truthyOpt
         hourOf minuteOf secondOf] in *;
    rewrite split_dateToken; cbn [List.length Nat.eqb]; unfold parseIntElem;
    cbn [elem nth_error JS.ToStringElem]; rewrite Hpd, Hpm, Hpy; cbn [option_map].
  - reflexivity.
  - destruct (tokenOk_elim _ _ (digit2_ok h Hh)) as (Hph & _).
    destruct (tokenOk_elim _ _ (digit2_ok mi Hmi)) as (Hpmi & _).
    replace (JS.truthy (timeToken (HourMinute h mi))) with true by reflexivity.
    rewrite Hst. cbn [List.length Nat.leb nth_error JS.ToStringElem].
    rewrite Hph, Hpmi. reflexivity.
  - destruct (tokenOk_elim _ _ (digit2_ok h Hh)) as (Hph & _).
    destruct (tokenOk_elim _ _ (digit2_ok mi Hmi)) as (Hpmi & _).
    destruct (tokenOk_elim _ _ (digit2_ok s Hs)) as (Hps & _).
    replace (JS.truthy (timeToken (HourMinuteSecond h mi s))) with true by reflexivity.
    rewrite Hst. cbn [List.length Nat.leb nth_error JS.ToStringElem].
    rewrite Hph, Hpmi, Hps. reflexivity.
Qed.

End ParseFacts.

(** ** The Date constructor on two-digit components *)

Section ConstructFacts.
Import JSDate Calendar CalendarFacts.

Variable tza : JSDate.TimeZone.

(** On a zone of one offset below a day every local time is valid. *)
Lemma fixedOffset_validLocalTime (offset t : Z) :
  Z.abs offset < msPerDay -> validLocalTime (fixedOffset offset) t.
Proof.
  intros H. split; [exact H |].
  unfold LocalTime, UTC, fixedOffset. lia.
Qed.

Lemma TimeClip_range (x : option Z) (t : Z) :
  TimeClip x = Some t -> Z.abs t <= maxTime.
Proof.
  destruct x as [v |]; simpl; [| discriminate].
  destruct (Z.ltb_spec maxTime (Z.abs v)); [discriminate |].
  intros [= <-]. exact H.
Qed.

Lemma getFullYear_local (t : Z) :
  LocalTime tza (UTC tza t) = t ->
  getFullYear tza (mkDate (Some (UTC tza t))) = Some (YearFromTime t).
Proof. intros H. unfold getFullYear. cbn [DateValue option_map]. now rewrite H. Qed.

Lemma getMonth_local (t : Z) :
  LocalTime tza (UTC tza t) = t ->
  getMonth tza (mkDate (Some (UTC tza t))) = Some (MonthFromTime t).
Proof. intros H. unfold getMonth. cbn [DateValue option_map]. now rewrite H. Qed.

Lemma getDate_local (t : Z) :
  LocalTime tza (UTC tza t) = t ->
  getDate tza (mkDate (Some (UTC tza t))) = Some (DateFromTime t).
Proof. intros H. unfold getDate. cbn [DateValue option_map]. now rewrite H. Qed.

Lemma monthStart_range (m : Z) (l : bool) :
  1 <= m <= 12 -> 0 <= monthStart (m - 1) l <= 335.
Proof. intros Hm. month_cases m; destruct l; lia. Qed.

Lemma DayFromYear_range (y : Z) :
  100 <= y <= 9999 -> -700000 <= DayFromYear y <= 3000000.
Proof.
  intros Hy. unfold DayFromYear. Z.to_euclidean_division_equations; lia.
Qed.

(** The Date built from a four-digit year from 100 on, a month of the year
    and two-digit day, hours, minutes and seconds. *)
Lemma construct_civil (y m d h mi s : Z) :
  100 <= y <= 9999 -> 1 <= m <= 12 -> 0 <= d <= 99 ->
  0 <= h <= 99 -> 0 <= mi <= 99 -> 0 <= s <= 99 ->
  Z.abs (tza (civilTime y m d (MakeTime h mi s 0)) false) < msPerDay ->
  construct tza (Some y) (Some (m - 1)) (Some d) (Some h) (Some mi) (Some s)
  = mkDate (Some (UTC tza (civilTime y m d (MakeTime h mi s 0)))).
Proof.
  intros Hy Hm Hd Hh Hmi Hs Hoff.
  pose proof (monthStart_range m (isLeap y) Hm) as Hms.
  pose proof (DayFromYear_range y Hy) as Hdy.
  unfold construct, MakeFullYear.
  replace ((0 <=? y) && (y <=? 99)) with false
    by (symmetry; apply andb_false_iff; right; apply Z.leb_gt; lia).
  unfold MakeDay.
  replace ((m - 1) / 12) with 0 by (symmetry; apply Z.div_small; lia).
  replace ((m - 1) mod 12) with (m - 1) by (symmetry; apply Z.mod_small; lia).
  rewrite Z.add_0_r.
  cbn [MakeDate option_map TimeClip].
  change ((DayFromYear y + monthStart (m - 1) (isLeap y) + d - 1) * msPerDay
          + MakeTime h mi s 0)
    with (civilTime y m d (MakeTime h mi s 0)).
  assert (Hb : Z.abs (civilTime y m d (MakeTime h mi s 0)) <= 300000000000000)
    by (unfold civilTime, MakeTime, msPerDay, msPerHour, msPerMinute, msPerSecond; lia).
  unfold UTC.
  replace (maxTime <?
           Z.abs (civilTime y m d (MakeTime h mi s 0)
                  - tza (civilTime y m d (MakeTime h mi s 0)) false))
    with false
    by (symmetry; apply Z.ltb_ge; unfold msPerDay in Hoff; unfold maxTime; lia).
  reflexivity.
Qed.

Lemma MakeTime_of_day (h mi s : Z) :
  0 <= h <= 23 -> 0 <= mi <= 59 -> 0 <= s <= 59 ->
  0 <= MakeTime h mi s 0 < msPerDay.
Proof.
  intros. unfold MakeTime, msPerDay, msPerHour, msPerMinute, msPerSecond. lia.
Qed.

(** A day past the end of its month is the day that many days into the
    next month. *)
Lemma civilTime_overflow (y m d time : Z) :
  1 <= m <= 11 ->
  civilTime y m d time = civilTime y (m + 1) (d - daysInMonth y m) time.
Proof.
  intros Hm. unfold civilTime, msPerDay.
  replace (m + 1 - 1) with m by lia.
  assert (Hc : m = 1 \/ m = 2 \/ m = 3 \/ m = 4 \/ m = 5 \/ m = 6 \/ m = 7
               \/ m = 8 \/ m = 9 \/ m = 10 \/ m = 11) by lia.
  repeat (destruct Hc as [Hc | Hc]); subst m;
    match goal with
    | |- context [monthStart (?k - 1)] =>
        let v := eval vm_compute in (k - 1) in change (k - 1) with v
    end;
    cbv beta iota zeta delta [monthStart daysInMonth];
    destruct (isLeap y); lia.
Qed.

Lemma daysInMonth_range (y m : Z) : 28 <= daysInMonth y m <= 31.
Proof.
  unfold daysInMonth.
  destruct m as [| p | p]; try lia.
  destruct (isLeap y);
    repeat (destruct p as [p | p |]; try lia).
Qed.

End ConstructFacts.

(** ** The date normaliser *)

(** C5, as the code has it: for a calendar date with a year from 0100 to
    9999, written DD/MM/YYYY and optionally followed by a time of day HH:MM
    or HH:MM:SS, a local time that no change of offset of the host's zone
    skips, the parser returns a Date whose local year, month (0-based, so
    the month written minus one) and day are the ones written: the first
    component is the day and the second the month. *)
Theorem parseTransferDate_day_first
    (tza : JSDate.TimeZone) (parse : string -> option Z) (d m y : Z) (tok : TimeToken) :
  validLocalTime tza (writtenTime d m y tok) ->
  100 <= y <= 9999 ->
  1 <= m <= 12 ->
  1 <= d <= Calendar.daysInMonth y m ->
  validTime tok ->
  exists date,
    parseTransferDate tza parse (Some (render d m y tok)) = Some date
    /\ JSDate.getFullYear tza date = Some y
    /\ JSDate.getMonth tza date = Some (m - 1)
    /\ JSDate.getDate tza date = Some d.
Proof.
  intros (Hoff & Hlocal) Hy Hm Hd (Hh & Hmi & Hs).
  pose proof (daysInMonth_range y m) as Hdim.
  unfold writtenTime in *.
  rewrite parseTransferDate_render by (unfold twoDigitTime; lia).
  cbv zeta.
  rewrite (construct_civil tza) by (assumption || lia).
  cbn [JSDate.getTime JSDate.DateValue JSDate.isNaN].
  pose proof (MakeTime_of_day _ _ _ Hh Hmi Hs) as Ht.
  eexists. split; [reflexivity |].
  rewrite (getFullYear_local tza _ Hlocal), (getMonth_local tza _ Hlocal),
    (getDate_local tza _ Hlocal).
  rewrite (CalendarFacts.YearFromTime_civilTime y m d _ Hm Hd Ht).
  rewrite (CalendarFacts.MonthFromTime_civilTime y m d _ Hm Hd Ht).
  rewrite (CalendarFacts.DateFromTime_civilTime y m d _ Hm Hd Ht).
  repeat split.
Qed.

Lemma parseTransferDate_day_first_witness :
  exists date,
    parseTransferDate ict parseNothing (Some "05/03/2024") = Some date
    /\ JSDate.getFullYear ict date = Some 2024
    /\ JSDate.getMonth ict date = Some (3 - 1)
    /\ JSDate.getDate ict date = Some 5.
Proof.
  change "05/03/2024" with (render 5 3 2024 NoTime).
  apply (parseTransferDate_day_first ict parseNothing 5 3 2024 NoTime).
  - split; vm_compute; reflexivity.
  - lia.
  - lia.
  - vm_compute. split; discriminate.
  - unfold validTime. simpl. lia.
Defined.

(** C5 fails as stated on years below 100, on a time token past the end of
    the day and on a local time that the host's zone skips: 05/03/0050 is
    read as a day of 1950 and 15/01/2024 25:00 as 16 January, both on a
    zone of one offset, and 31/12/1942 23:30:00 is read as 1 January 1943
    on a zone that moves from UTC+7 to UTC+8 that night at 23:00. *)
Lemma short_year_late_hour_and_skipped_hour_move_the_date :
  (exists date,
     parseTransferDate ict parseNothing (Some "05/03/0050") = Some date
     /\ JSDate.getFullYear ict date = Some 1950)
  /\ (exists date,
        parseTransferDate ict parseNothing (Some "15/01/2024 25:00") = Some date
        /\ JSDate.getDate ict date = Some 16)
  /\ (exists date,
        parseTransferDate saigon1942 parseNothing (Some "31/12/1942 23:30:00") = Some date
        /\ JSDate.getFullYear saigon1942 date = Some 1943
        /\ JSDate.getMonth saigon1942 date = Some 0
        /\ JSDate.getDate saigon1942 date = Some 1).
Proof.
  split; [| split].
  - eexists. split; [vm_compute; reflexivity |]. vm_compute. reflexivity.
  - eexists. split; [vm_compute; reflexivity |]. vm_compute. reflexivity.
  - eexists. split; [vm_compute; reflexivity |].
    split; [vm_compute; reflexivity |].
    split; vm_compute; reflexivity.
Qed.

(** C2 on the code: a day past the end of its month, up to 31, is not
    refused; the parser returns the Date of the day that many days into the
    next month, so 31/02/2024 is 2 March 2024. *)
Theorem day_past_month_end_rolls_over
    (tza : JSDate.TimeZone) (parse : string -> option Z) (d m y : Z) (tok : TimeToken) :
  validLocalTime tza (writtenTime d m y tok) ->
  100 <= y <= 9999 ->
  1 <= m <= 12 ->
  Calendar.daysInMonth y m < d <= 31 ->
  validTime tok ->
  exists date,
    parseTransferDate tza parse (Some (render d m y tok)) = Some date
    /\ JSDate.getFullYear tza date = Some y
    /\ JSDate.getMonth tza date = Some m
    /\ JSDate.getDate tza date = Some (d - Calendar.daysInMonth y m).
Proof.
  intros (Hoff & Hlocal) Hy Hm Hd (Hh & Hmi & Hs).
  pose proof (daysInMonth_range y m) as Hdim.
  pose proof (daysInMonth_range y (m + 1)) as Hdim'.
  assert (Hm11 : 1 <= m <= 11).
  { destruct (Z.eq_dec m 12) as [-> |]; [| lia].
    unfold Calendar.daysInMonth in Hd. lia. }
  unfold writtenTime in *.
  rewrite parseTransferDate_render by (unfold twoDigitTime; lia).
  cbv zeta.
  rewrite (construct_civil tza) by (assumption || lia).
  cbn [JSDate.getTime JSDate.DateValue JSDate.isNaN].
  pose proof (MakeTime_of_day _ _ _ Hh Hmi Hs) as Ht.
  eexists. split; [reflexivity |].
  rewrite (getFullYear_local tza _ Hlocal), (getMonth_local tza _ Hlocal),
    (getDate_local tza _ Hlocal).
  rewrite (civilTime_overflow y m d _ Hm11).
  assert (Hm' : 1 <= m + 1 <= 12) by lia.
  assert (Hd' : 1 <= d - Calendar.daysInMonth y m <= Calendar.daysInMonth y (m + 1)) by lia.
  rewrite (CalendarFacts.YearFromTime_civilTime y (m + 1) _ _ Hm' Hd' Ht).
  rewrite (CalendarFacts.MonthFromTime_civilTime y (m + 1) _ _ Hm' Hd' Ht).
  rewrite (CalendarFacts.DateFromTime_civilTime y (m + 1) _ _ Hm' Hd' Ht).
  replace (m + 1 - 1) with m by lia.
  repeat split.
Qed.

Lemma day_past_month_end_rolls_over_witness :
  exists date,
    parseTransferDate ict parseNothing (Some "31/02/2024") = Some date
    /\ JSDate.getFullYear ict date = Some 2024
    /\ JSDate.getMonth ict date = Some 2
    /\ JSDate.getDate ict date = Some (31 - Calendar.daysInMonth 2024 2).
Proof.
  change "31/02/2024" with (render 31 2 2024 NoTime).
  apply (day_past_month_end_rolls_over ict parseNothing 31 2 2024 NoTime).
  - split; vm_compute; reflexivity.
  - lia.
  - lia.
  - vm_compute. split; [reflexivity | discriminate].
  - unfold validTime. simpl. lia.
Defined.

(** C8: the parser returns null on null and on the empty string, and on
    every string it returns null or a Date whose time value is a number
    within the range of time values, never an invalid Date. *)
Theorem parseTransferDate_null_or_valid
    (tza : JSDate.TimeZone) (parse : string -> option Z) :
  parseTransferDate tza parse None = None
  /\ parseTransferDate tza parse (Some "") = None
  /\ forall dateString : option string,
       parseTransferDate tza parse dateString = None
       \/ exists t,
            parseTransferDate tza parse dateString = Some (JSDate.mkDate (Some t))
            /\ Z.abs t <= JSDate.maxTime.
Proof.
  split; [reflexivity |]. split; [reflexivity |].
  assert (Hvalid : forall x : option Z,
             (if JSDate.isNaN (JSDate.getTime (JSDate.mkDate (JSDate.TimeClip x)))
              then @None JSDate.Date else Some (JSDate.mkDate (JSDate.TimeClip x))) = None
             \/ exists t,
                  (if JSDate.isNaN (JSDate.getTime (JSDate.mkDate (JSDate.TimeClip x)))
                   then @None JSDate.Date else Some (JSDate.mkDate (JSDate.TimeClip x)))
                  = Some (JSDate.mkDate (Some t))
                  /\ Z.abs t <= JSDate.maxTime).
  { intros x. destruct (JSDate.TimeClip x) as [t |] eqn:E; simpl.
    - right. exists t. split; [reflexivity |]. exact (TimeClip_range x t E).
    - now left. }
  intros [s |]; [| now left].
  unfold parseTransferDate.
  destruct (negb (JS.truthy s)); [now left |].
  assert (Hfb : (if negb (JSDate.isNaN (JSDate.getTime (JSDate.constructFromString parse s)))
                 then Some (JSDate.constructFromString parse s) else None) = None
                \/ exists t,
                     (if negb (JSDate.isNaN
                                 (JSDate.getTime (JSDate.constructFromString parse s)))
                      then Some (JSDate.constructFromString parse s) else None)
                     = Some (JSDate.mkDate (Some t))
                     /\ Z.abs t <= JSDate.maxTime).
  { unfold JSDate.constructFromString.
    destruct (JSDate.TimeClip (parse s)) as [t |] eqn:E; simpl.
    - right. exists t. split; [reflexivity |]. exact (TimeClip_range _ t E).
    - now left. }
  cbv zeta.
  destruct (1 <=? List.length (JS.split " " (JS.trim s)))%nat; [| exact Hfb].
  destruct (elem (JS.split " " (JS.trim s)) 0) as [p0 |]; [| now left].
  destruct (List.length (JS.split "/" p0) =? 3)%nat; [| exact Hfb].
  match goal with
  | |- context [match ?e with (_, _) => _ end] => destruct e as [[h mi] sec]
  end.
  unfold JSDate.construct.
  destruct (parseIntElem (JS.split "/" p0) 2) as [yy |];
    [| now left].
  destruct (option_map (fun m : Z => m - 1) (parseIntElem (JS.split "/" p0) 1)) as [mm |];
    [| now left].
  destruct (parseIntElem (JS.split "/" p0) 0) as [dd |]; [| now left].
  apply Hvalid.
Qed.

(** * Further properties of the code *)

(** ** Strings *)

Lemma string_app_assoc (a b c : string) : ((a ++ b) ++ c = a ++ (b ++ c))%string.
Proof. induction a as [| x a IH]; simpl; [reflexivity | now rewrite IH]. Qed.

Lemma string_app_empty_r (a : string) : (a ++ "")%string = a.
Proof. induction a as [| x a IH]; simpl; [reflexivity | now rewrite IH]. Qed.

Lemma prefix_iff (s1 s2 : string) :
  String.prefix s1 s2 = true <-> exists b, s2 = (s1 ++ b)%string.
Proof.
  revert s2. induction s1 as [| x s1 IH]; intros s2.
  - destruct s2; simpl; split; eauto.
  - destruct s2 as [| y s2]; simpl.
    + split; [discriminate | intros [b Hb]; discriminate].
    + destruct (ascii_dec x y) as [-> | Hxy].
      * rewrite IH. split; intros [b Hb]; exists b; congruence.
      * split; [discriminate | intros [b Hb]; congruence].
Qed.

(** [includes] is containment as a substring. *)
Lemma includes_iff (s sub : string) :
  JS.includes s sub = true <-> exists a b, s = (a ++ sub ++ b)%string.
Proof.
  split.
  - induction s as [| c s IH]; cbn [JS.includes]; rewrite orb_true_iff.
    + intros [H | H]; [| discriminate].
      apply prefix_iff in H. destruct H as [b Hb]. now exists "", b.
    + intros [H | H].
      * apply prefix_iff in H. destruct H as [b Hb]. now exists "", b.
      * destruct (IH H) as (a & b & ->). now exists (String c a), b.
  - intros (a & b & ->). induction a as [| c a IH].
    + assert (H : String.prefix sub (sub ++ b) = true) by (apply prefix_iff; eauto).
      cbn [append]. destruct (sub ++ b)%string; cbn [JS.includes]; now rewrite H.
    + cbn [append JS.includes]. rewrite IH. apply orb_true_r.
Qed.

Lemma lowerUnit_idempotent (c : ascii) : JS.lowerUnit (JS.lowerUnit c) = JS.lowerUnit c.
Proof.
  destruct c as [b0 b1 b2 b3 b4 b5 b6 b7].
  destruct b0, b1, b2, b3, b4, b5, b6, b7; reflexivity.
Qed.

Lemma toLowerCase_idempotent (s : string) :
  JS.toLowerCase (JS.toLowerCase s) = JS.toLowerCase s.
Proof.
  induction s as [| c s IH]; simpl; [reflexivity |].
  now rewrite lowerUnit_idempotent, IH.
Qed.

Lemma truthy_toLowerCase (s : string) : JS.truthy (JS.toLowerCase s) = JS.truthy s.
Proof. now destruct s. Qed.

(** ** Filtering, field by field *)

Section FieldFacts.

Variable tza : JSDate.TimeZone.
Variable parse : string -> option Z.

Lemma filter_filter {A : Type} (p q : A -> bool) (l : list A) :
  List.filter p (List.filter q l) = List.filter (fun x => q x && p x) l.
Proof.
  induction l as [| x l IH]; simpl; [reflexivity |].
  destruct (q x); simpl; [destruct (p x) |]; now rewrite IH.
Qed.

(** The callback is the conjunction of the four checks, each on its own. *)
Lemma keeps_fieldwise (f : FilterState.t) (t : Transaction.t) :
  keeps tza parse f t
  = keeps tza parse (FilterState.mk (FilterState.month f) "" "" "") t
    && keeps tza parse (FilterState.mk "" (FilterState.date f) "" "") t
    && keeps tza parse (FilterState.mk "" "" (FilterState.sender f) "") t
    && keeps tza parse (FilterState.mk "" "" "" (FilterState.receiver f)) t.
Proof.
  unfold keeps. cbn [FilterState.month FilterState.date FilterState.sender
                     FilterState.receiver JS.truthy andb].
  destruct (parseTransferDate tza parse (Transaction.transfer_time t)) as [d |].
  - destruct (JS.truthy (FilterState.month f) && _); [reflexivity |].
    destruct (JS.truthy (FilterState.date f) && _); [reflexivity |].
    destruct (JS.truthy (FilterState.sender f) && _); [reflexivity |].
    destruct (JS.truthy (FilterState.receiver f) && _); reflexivity.
  - destruct (JS.truthy (FilterState.sender f) && _); [reflexivity |].
    destruct (JS.truthy (FilterState.receiver f) && _); reflexivity.
Qed.

Lemma keeps_sender_ext (m d q1 q2 r : string) (t : Transaction.t) :
  JS.toLowerCase q1 = JS.toLowerCase q2 ->
  keeps tza parse (FilterState.mk m d q1 r) t = keeps tza parse (FilterState.mk m d q2 r) t.
Proof.
  intros H. unfold keeps. cbn [FilterState.sender FilterState.month FilterState.date
                               FilterState.receiver].
  rewrite <- (truthy_toLowerCase q1), <- (truthy_toLowerCase q2), H.
  reflexivity.
Qed.

End FieldFacts.

(** X1: a filter gives the same list as its four fields applied one after
    the other, each as a filter of its own. *)
Theorem filterTransactions_one_field_at_a_time
    (tza : JSDate.TimeZone) (parse : string -> option Z)
    (transactions : list Transaction.t) (f : FilterState.t) :
  filterTransactions tza parse transactions f
  = filterTransactions tza parse
      (filterTransactions tza parse
         (filterTransactions tza parse
            (filterTransactions tza parse transactions
               (FilterState.mk (FilterState.month f) "" "" ""))
            (FilterState.mk "" (FilterState.date f) "" ""))
         (FilterState.mk "" "" (FilterState.sender f) ""))
      (FilterState.mk "" "" "" (FilterState.receiver f)).
Proof.
  unfold filterTransactions. rewrite !filter_filter.
  apply filter_ext. intros t. cbv beta.
  rewrite (keeps_fieldwise tza parse f t), !andb_assoc. reflexivity.
Qed.

(** X2: with only the sender field set, to a non-empty text, the result
    holds exactly the transactions whose sender in lower case contains the
    text in lower case as a substring. *)
Theorem sender_filter_is_substring_match
    (tza : JSDate.TimeZone) (parse : string -> option Z)
    (transactions : list Transaction.t) (q : string) (t : Transaction.t) :
  q <> "" ->
  (In t (filterTransactions tza parse transactions (FilterState.mk "" "" q ""))
   <-> In t transactions
       /\ exists a b,
            JS.toLowerCase (Transaction.sender t)
            = (a ++ JS.toLowerCase q ++ b)%string).
Proof.
  intros Hq. unfold filterTransactions. rewrite filter_In.
  rewrite <- includes_iff.
  assert (Hk : keeps tza parse (FilterState.mk "" "" q "") t
               = JS.includes (JS.toLowerCase (Transaction.sender t)) (JS.toLowerCase q)).
  { unfold keeps. cbn [FilterState.sender FilterState.month FilterState.date
                       FilterState.receiver JS.truthy andb].
    apply truthy_true_iff in Hq. rewrite Hq. cbn [andb].
    destruct (parseTransferDate tza parse (Transaction.transfer_time t));
      now destruct (JS.includes _ _). }
  now rewrite Hk.
Qed.

Lemma sender_filter_is_substring_match_witness :
  In txNoTime (filterTransactions ict parseNothing [txNoTime; txJanuary]
                 (FilterState.mk "" "" "VAN a" ""))
  <-> In txNoTime [txNoTime; txJanuary]
      /\ exists a b,
           JS.toLowerCase (Transaction.sender txNoTime)
           = (a ++ JS.toLowerCase "VAN a" ++ b)%string.
Proof.
  apply (sender_filter_is_substring_match ict parseNothing
           [txNoTime; txJanuary] "VAN a" txNoTime).
  discriminate.
Defined.

(** X3: two sender texts that are equal in lower case give the same
    result, whatever the other fields are. *)
Theorem sender_filter_ignores_case
    (tza : JSDate.TimeZone) (parse : string -> option Z)
    (transactions : list Transaction.t) (m d q1 q2 r : string) :
  JS.toLowerCase q1 = JS.toLowerCase q2 ->
  filterTransactions tza parse transactions (FilterState.mk m d q1 r)
  = filterTransactions tza parse transactions (FilterState.mk m d q2 r).
Proof.
  intros H. unfold filterTransactions. apply filter_ext.
  intros t. now apply keeps_sender_ext.
Qed.

Lemma sender_filter_ignores_case_witness :
  filterTransactions ict parseNothing [txNoTime; txBadTime; txJanuary]
    (FilterState.mk "" "" "NGUYEN" "")
  = filterTransactions ict parseNothing [txNoTime; txBadTime; txJanuary]
      (FilterState.mk "" "" "nguyen" "").
Proof.
  apply (sender_filter_ignores_case ict parseNothing
           [txNoTime; txBadTime; txJanuary] "" "" "NGUYEN" "nguyen" "").
  reflexivity.
Defined.

(** X4: when the month and date fields are both set and the date does not
    start with the month followed by a dash, every transaction of the
    result is one whose transfer_time does not parse. *)
Theorem conflicting_month_and_date_leave_undated
    (tza : JSDate.TimeZone) (parse : string -> option Z)
    (transactions : list Transaction.t) (f : FilterState.t) (t : Transaction.t) :
  FilterState.month f <> "" ->
  FilterState.date f <> "" ->
  String.prefix (FilterState.month f ++ "-") (FilterState.date f) = false ->
  In t (filterTransactions tza parse transactions f) ->
  parseTransferDate tza parse (Transaction.transfer_time t) = None.
Proof.
  intros Hm Hd Hp Hin. unfold filterTransactions in Hin.
  apply filter_In in Hin. destruct Hin as [_ Hk].
  apply truthy_true_iff in Hm. apply truthy_true_iff in Hd.
  unfold keeps in Hk. rewrite Hm, Hd in Hk. cbn [andb] in Hk.
  destruct (parseTransferDate tza parse (Transaction.transfer_time t)) as [dt |];
    [| reflexivity].
  destruct (String.eqb_spec (monthYearOf tza dt) (FilterState.month f)) as [E1 | E1];
    cbn [negb] in Hk; [| discriminate].
  destruct (String.eqb_spec (dateStrOf tza dt) (FilterState.date f)) as [E2 | E2];
    cbn [negb] in Hk; [| discriminate].
  exfalso. assert (Ht : String.prefix (FilterState.month f ++ "-") (FilterState.date f) = true).
  { apply prefix_iff. rewrite <- E2, <- E1. unfold dateStrOf.
    exists (pad2 (JSDate.getDate tza dt)). now rewrite string_app_assoc. }
  congruence.
Qed.

Lemma conflicting_month_and_date_leave_undated_witness :
  parseTransferDate ict parseNothing (Transaction.transfer_time txNoTime) = None.
Proof.
  apply (conflicting_month_and_date_leave_undated ict parseNothing
           [txNoTime; txJanuary] (FilterState.mk "2024-01" "2024-02-15" "" "") txNoTime).
  - discriminate.
  - discriminate.
  - reflexivity.
  - vm_compute. left. reflexivity.
Defined.

(** ** Writing numbers and the parts of a Date *)

Section NumberFacts.
Import JSDate Calendar CalendarFacts.

Lemma NumberToString_digit4 (y : Z) :
  1000 <= y <= 9999 -> JS.NumberToString (Some y) = digit4 y.
Proof.
  intros H. unfold JS.NumberToString.
  replace (y <? 0) with false by (symmetry; apply Z.ltb_ge; lia).
  assert (Hl : 9 <= Z.log2 y) by (change 9 with (Z.log2 1000); apply Z.log2_le_mono; lia).
  destruct (Z.to_nat (Z.log2 y) + 1)%nat as [| [| [| [| k]]]] eqn:E; try lia.
  cbn [JS.natDigits].
  replace (y <? 10) with false by (symmetry; apply Z.ltb_ge; lia).
  replace (y / 10 <? 10) with false
    by (symmetry; apply Z.ltb_ge; Z.to_euclidean_division_equations; lia).
  replace (y / 10 / 10 <? 10) with false
    by (symmetry; apply Z.ltb_ge; Z.to_euclidean_division_equations; lia).
  replace (y / 10 / 10 / 10 <? 10) with true
    by (symmetry; apply Z.ltb_lt; Z.to_euclidean_division_equations; lia).
  unfold digit4.
  replace (y / 10 / 10 / 10 mod 10) with (y / 1000)
    by (Z.to_euclidean_division_equations; lia).
  replace (y / 10 / 10 mod 10) with (y / 100 mod 10)
    by (Z.to_euclidean_division_equations; lia).
  reflexivity.
Qed.

Lemma pad2_digit2 (n : Z) : 0 <= n <= 99 -> pad2 (Some n) = digit2 n.
Proof.
  intros H. unfold pad2, JS.NumberToString, digit2.
  replace (n <? 0) with false by (symmetry; apply Z.ltb_ge; lia).
  destruct (Z.ltb_spec n 10) as [Hlt | Hge].
  - rewrite Nat.add_1_r. cbn [JS.natDigits].
    replace (n <? 10) with true by (symmetry; apply Z.ltb_lt; lia).
    replace (n / 10) with 0 by (Z.to_euclidean_division_equations; lia).
    reflexivity.
  - assert (Hl : 3 <= Z.log2 n)
      by (change 3 with (Z.log2 10); apply Z.log2_le_mono; lia).
    destruct (Z.to_nat (Z.log2 n) + 1)%nat as [| [| k]] eqn:E; try lia.
    cbn [JS.natDigits].
    replace (n <? 10) with false by (symmetry; apply Z.ltb_ge; lia).
    replace (n / 10 <? 10) with true
      by (symmetry; apply Z.ltb_lt; Z.to_euclidean_division_equations; lia).
    replace (n / 10 mod 10) with (n / 10)
      by (Z.to_euclidean_division_equations; lia).
    reflexivity.
Qed.

Lemma HourFromTime_civilTime (y m d h mi s : Z) :
  0 <= h <= 23 -> 0 <= mi <= 59 -> 0 <= s <= 59 ->
  HourFromTime (civilTime y m d (MakeTime h mi s 0)) = h.
Proof.
  intros Hh Hmi Hs.
  unfold HourFromTime, civilTime, MakeTime, msPerDay, msPerHour, msPerMinute, msPerSecond.
  generalize (DayFromYear y + monthStart (m - 1) (isLeap y) + d - 1). intros D.
  Z.to_euclidean_division_equations; lia.
Qed.

Lemma MinFromTime_civilTime (y m d h mi s : Z) :
  0 <= h <= 23 -> 0 <= mi <= 59 -> 0 <= s <= 59 ->
  MinFromTime (civilTime y m d (MakeTime h mi s 0)) = mi.
Proof.
  intros Hh Hmi Hs.
  unfold MinFromTime, civilTime, MakeTime, msPerDay, msPerHour, msPerMinute, msPerSecond.
  generalize (DayFromYear y + monthStart (m - 1) (isLeap y) + d - 1). intros D.
  Z.to_euclidean_division_equations; lia.
Qed.

Lemma SecFromTime_civilTime (y m d h mi s : Z) :
  0 <= h <= 23 -> 0 <= mi <= 59 -> 0 <= s <= 59 ->
  SecFromTime (civilTime y m d (MakeTime h mi s 0)) = s.
Proof.
  intros Hh Hmi Hs.
  unfold SecFromTime, civilTime, MakeTime, msPerDay, msPerHour, msPerMinute, msPerSecond.
  generalize (DayFromYear y + monthStart (m - 1) (isLeap y) + d - 1). intros D.
  Z.to_euclidean_division_equations; lia.
Qed.

(** The Date of a calendar date written DD/MM/YYYY with a time of day. *)
Lemma parseTransferDate_valid
    (tza : TimeZone) (parse : string -> option Z) (d m y : Z) (tok : TimeToken) :
  validLocalTime tza (writtenTime d m y tok) ->
  100 <= y <= 9999 ->
  1 <= m <= 12 ->
  1 <= d <= daysInMonth y m ->
  validTime tok ->
  parseTransferDate tza parse (Some (render d m y tok))
  = Some (mkDate (Some (UTC tza (writtenTime d m y tok)))).
Proof.
  intros (Hoff & _) Hy Hm Hd (Hh & Hmi & Hs).
  pose proof (daysInMonth_range y m) as Hdim.
  unfold writtenTime in *.
  rewrite parseTransferDate_render by (unfold twoDigitTime; lia).
  cbv zeta. rewrite (construct_civil tza) by (assumption || lia).
  reflexivity.
Qed.

Lemma monthYearOf_valid (tza : TimeZone) (d m y time : Z) :
  LocalTime tza (UTC tza (civilTime y m d time)) = civilTime y m d time ->
  1000 <= y <= 9999 ->
  1 <= m <= 12 ->
  1 <= d <= daysInMonth y m ->
  0 <= time < msPerDay ->
  monthYearOf tza (mkDate (Some (UTC tza (civilTime y m d time))))
  = (digit4 y ++ "-" ++ digit2 m)%string.
Proof.
  intros Hlocal Hy Hm Hd Ht. unfold monthYearOf.
  rewrite (getFullYear_local tza _ Hlocal), (getMonth_local tza _ Hlocal).
  rewrite (YearFromTime_civilTime y m d _ Hm Hd Ht).
  rewrite (MonthFromTime_civilTime y m d _ Hm Hd Ht).
  cbn [option_map]. replace (m - 1 + 1) with m by lia.
  rewrite NumberToString_digit4 by lia. rewrite pad2_digit2 by lia.
  reflexivity.
Qed.

Lemma dateStrOf_valid (tza : TimeZone) (d m y time : Z) :
  LocalTime tza (UTC tza (civilTime y m d time)) = civilTime y m d time ->
  1000 <= y <= 9999 ->
  1 <= m <= 12 ->
  1 <= d <= daysInMonth y m ->
  0 <= time < msPerDay ->
  dateStrOf tza (mkDate (Some (UTC tza (civilTime y m d time))))
  = ((digit4 y ++ "-" ++ digit2 m) ++ "-" ++ digit2 d)%string.
Proof.
  intros Hlocal Hy Hm Hd Ht. unfold dateStrOf.
  rewrite (monthYearOf_valid tza d m y time Hlocal Hy Hm Hd Ht).
  rewrite (getDate_local tza _ Hlocal).
  rewrite (DateFromTime_civilTime y m d _ Hm Hd Ht).
  pose proof (daysInMonth_range y m) as Hdim.
  rewrite pad2_digit2 by lia. reflexivity.
Qed.

End NumberFacts.

(** ** Dates through the filter and the date helpers *)

(** X5: a transaction whose transfer_time is a calendar date of a year from
    1000 to 9999, written DD/MM/YYYY with an optional time of day, a local
    time that no change of offset of the host's zone skips, is kept by a
    filter of month and date exactly when the month field is empty or is
    YYYY-MM and the date field is empty or is YYYY-MM-DD. *)
Theorem month_and_date_filters_select_the_day
    (tza : JSDate.TimeZone) (parse : string -> option Z)
    (transactions : list Transaction.t) (t : Transaction.t)
    (d m y : Z) (tok : TimeToken) (M D : string) :
  validLocalTime tza (writtenTime d m y tok) ->
  1000 <= y <= 9999 ->
  1 <= m <= 12 ->
  1 <= d <= Calendar.daysInMonth y m ->
  validTime tok ->
  Transaction.transfer_time t = Some (render d m y tok) ->
  (In t (filterTransactions tza parse transactions (FilterState.mk M D "" ""))
   <-> In t transactions
       /\ (M = "" \/ M = digit4 y ++ "-" ++ digit2 m)%string
       /\ (D = "" \/ D = (digit4 y ++ "-" ++ digit2 m) ++ "-" ++ digit2 d)%string).
Proof.
  intros Hv Hy Hm Hd Htok Ht.
  assert (Hy' : 100 <= y <= 9999) by lia.
  pose proof (proj2 Hv) as Hlocal. unfold writtenTime in Hlocal.
  pose proof Htok as (Hh & Hmi & Hs).
  pose proof (MakeTime_of_day _ _ _ Hh Hmi Hs) as Htime.
  unfold filterTransactions. rewrite filter_In.
  assert (Hk : keeps tza parse (FilterState.mk M D "" "") t = true
               <-> (M = "" \/ M = digit4 y ++ "-" ++ digit2 m)%string
                   /\ (D = "" \/ D = (digit4 y ++ "-" ++ digit2 m) ++ "-" ++ digit2 d)%string).
  { unfold keeps. rewrite Ht.
    rewrite (parseTransferDate_valid tza parse d m y tok Hv Hy' Hm Hd Htok).
    unfold writtenTime.
    rewrite (monthYearOf_valid tza d m y _ Hlocal Hy Hm Hd Htime).
    rewrite (dateStrOf_valid tza d m y _ Hlocal Hy Hm Hd Htime).
    cbn [FilterState.month FilterState.date FilterState.sender FilterState.receiver
         JS.truthy andb].
    destruct M as [| c M']; destruct D as [| c' D']; cbn [JS.truthy andb].
    - split; [intros _; split; now left | reflexivity].
    - destruct (String.eqb_spec ((digit4 y ++ "-" ++ digit2 m) ++ "-" ++ digit2 d)
                  (String c' D')) as [E | E]; cbn [negb].
      + split; [intros _; split; [now left | now right] | reflexivity].
      + split; [discriminate | intros [_ [H | H]]; [discriminate | now elim E]].
    - destruct (String.eqb_spec (digit4 y ++ "-" ++ digit2 m) (String c M'))
        as [E | E]; cbn [negb].
      + split; [intros _; split; [now right | now left] | reflexivity].
      + split; [discriminate | intros [[H | H] _]; [discriminate | now elim E]].
    - destruct (String.eqb_spec (digit4 y ++ "-" ++ digit2 m) (String c M'))
        as [E | E]; cbn [negb].
      + destruct (String.eqb_spec ((digit4 y ++ "-" ++ digit2 m) ++ "-" ++ digit2 d)
                    (String c' D')) as [E' | E']; cbn [negb].
        * split; [intros _; split; now right | reflexivity].
        * split; [discriminate | intros [_ [H | H]]; [discriminate | now elim E']].
      + split; [discriminate | intros [[H | H] _]; [discriminate | now elim E]]. }
  now rewrite Hk.
Qed.

Lemma month_and_date_filters_select_the_day_witness :
  In txJanuary (filterTransactions ict parseNothing [txNoTime; txJanuary]
                  (FilterState.mk "2024-01" "" "" ""))
  <-> In txJanuary [txNoTime; txJanuary]
      /\ ("2024-01" = "" \/ "2024-01" = digit4 2024 ++ "-" ++ digit2 1)%string
      /\ ("" = "" \/ "" = (digit4 2024 ++ "-" ++ digit2 1) ++ "-" ++ digit2 15)%string.
Proof.
  apply (month_and_date_filters_select_the_day ict parseNothing
           [txNoTime; txJanuary] txJanuary 15 1 2024 (HourMinuteSecond 10 0 0)
           "2024-01" "").
  - split; vm_compute; reflexivity.
  - lia.
  - lia.
  - vm_compute. split; discriminate.
  - unfold validTime. simpl. lia.
  - reflexivity.
Defined.

(** X6: on a calendar date of a year from 1000 to 9999 written DD/MM/YYYY,
    with an optional time of day, a local time that no change of offset of
    the host's zone skips, getDateOnly returns YYYY-MM-DD. *)
Theorem getDateOnly_reorders_the_date
    (tza : JSDate.TimeZone) (parse : string -> option Z) (d m y : Z) (tok : TimeToken) :
  validLocalTime tza (writtenTime d m y tok) ->
  1000 <= y <= 9999 ->
  1 <= m <= 12 ->
  1 <= d <= Calendar.daysInMonth y m ->
  validTime tok ->
  getDateOnly tza parse (Some (render d m y tok))
  = (digit4 y ++ "-" ++ digit2 m ++ "-" ++ digit2 d)%string.
Proof.
  intros Hv Hy Hm Hd Htok.
  assert (Hy' : 100 <= y <= 9999) by lia.
  pose proof (daysInMonth_range y m) as Hdim.
  pose proof (proj2 Hv) as Hlocal. unfold writtenTime in Hlocal.
  pose proof Htok as (Hh & Hmi & Hs).
  pose proof (MakeTime_of_day _ _ _ Hh Hmi Hs) as Htime.
  unfold getDateOnly.
  rewrite (parseTransferDate_valid tza parse d m y tok Hv Hy' Hm Hd Htok).
  cbv zeta. unfold writtenTime.
  rewrite (getFullYear_local tza _ Hlocal), (getMonth_local tza _ Hlocal),
    (getDate_local tza _ Hlocal).
  rewrite (CalendarFacts.YearFromTime_civilTime y m d _ Hm Hd Htime).
  rewrite (CalendarFacts.MonthFromTime_civilTime y m d _ Hm Hd Htime).
  rewrite (CalendarFacts.DateFromTime_civilTime y m d _ Hm Hd Htime).
  cbn [option_map]. replace (m - 1 + 1) with m by lia.
  rewrite NumberToString_digit4 by lia. rewrite !pad2_digit2 by lia.
  reflexivity.
Qed.

Lemma getDateOnly_reorders_the_date_witness :
  getDateOnly ict parseNothing (Some "15/01/2024 10:00:00") = "2024-01-15".
Proof.
  change "15/01/2024 10:00:00" with (render 15 1 2024 (HourMinuteSecond 10 0 0)).
  change "2024-01-15" with (digit4 2024 ++ "-" ++ digit2 1 ++ "-" ++ digit2 15)%string.
  apply (getDateOnly_reorders_the_date ict parseNothing 15 1 2024
           (HourMinuteSecond 10 0 0)).
  - split; vm_compute; reflexivity.
  - lia.
  - lia.
  - vm_compute. split; discriminate.
  - unfold validTime. simpl. lia.
Defined.

(** X7: on a calendar date of a year from 0100 to 9999 written DD/MM/YYYY
    with an optional time of day, a local time that no change of offset of
    the host's zone skips, getTimeOnly returns the time of day as HH:MM:SS,
    the seconds being 00 when only HH:MM is written and the time 00:00:00
    when none is. *)
Theorem getTimeOnly_returns_the_time
    (tza : JSDate.TimeZone) (parse : string -> option Z) (d m y : Z) (tok : TimeToken) :
  validLocalTime tza (writtenTime d m y tok) ->
  100 <= y <= 9999 ->
  1 <= m <= 12 ->
  1 <= d <= Calendar.daysInMonth y m ->
  validTime tok ->
  getTimeOnly tza parse (Some (render d m y tok))
  = (digit2 (hourOf tok) ++ ":" ++ digit2 (minuteOf tok) ++ ":"
     ++ digit2 (secondOf tok))%string.
Proof.
  intros Hv Hy Hm Hd Htok.
  unfold getTimeOnly.
  rewrite (parseTransferDate_valid tza parse d m y tok Hv Hy Hm Hd Htok).
  pose proof (proj2 Hv) as Hlocal.
  destruct Htok as (Hh & Hmi & Hs).
  cbv zeta. unfold JSDate.getHours, JSDate.getMinutes, JSDate.getSeconds.
  cbn [JSDate.DateValue option_map]. rewrite Hlocal. unfold writtenTime.
  rewrite HourFromTime_civilTime, MinFromTime_civilTime, SecFromTime_civilTime by assumption.
  rewrite !pad2_digit2 by lia. reflexivity.
Qed.

Lemma getTimeOnly_returns_the_time_witness :
  getTimeOnly ict parseNothing (Some "15/01/2024 10:05") = "10:05:00".
Proof.
  change "15/01/2024 10:05" with (render 15 1 2024 (HourMinute 10 5)).
  change "10:05:00"
    with (digit2 (hourOf (HourMinute 10 5)) ++ ":" ++ digit2 (minuteOf (HourMinute 10 5))
          ++ ":" ++ digit2 (secondOf (HourMinute 10 5)))%string.
  apply (getTimeOnly_returns_the_time ict parseNothing 15 1 2024 (HourMinute 10 5)).
  - split; vm_compute; reflexivity.
  - lia.
  - lia.
  - vm_compute. split; discriminate.
  - unfold validTime. simpl. lia.
Defined.

(** The skipped hour of 31 December 1942: where the zone moves from UTC+7
    to UTC+8 at 23:00, getTimeOnly of 23:30:00 is 00:30:00 and getDateOnly
    is the next day. *)
Lemma skipped_hour_is_moved_on :
  getTimeOnly saigon1942 parseNothing (Some "31/12/1942 23:30:00") = "00:30:00"
  /\ getDateOnly saigon1942 parseNothing (Some "31/12/1942 23:30:00") = "1943-01-01"
  /\ ~ validLocalTime saigon1942 (writtenTime 31 12 1942 (HourMinuteSecond 23 30 0)).
Proof.
  split; [vm_compute; reflexivity |]. split; [vm_compute; reflexivity |].
  intros [_ H]. vm_compute in H. discriminate.
Qed.

(** X8: the date field of a filter is compared with what getDateOnly
    returns: with only the date field set, to a non-empty text, a
    transaction is in the result exactly when getDateOnly of its
    transfer_time is that text or is empty. *)
Theorem date_filter_agrees_with_getDateOnly
    (tza : JSDate.TimeZone) (parse : string -> option Z)
    (transactions : list Transaction.t) (D : string) (t : Transaction.t) :
  D <> "" ->
  (In t (filterTransactions tza parse transactions (FilterState.mk "" D "" ""))
   <-> In t transactions
       /\ (getDateOnly tza parse (Transaction.transfer_time t) = D
           \/ getDateOnly tza parse (Transaction.transfer_time t) = "")).
Proof.
  intros HD. unfold filterTransactions. rewrite filter_In.
  apply truthy_true_iff in HD.
  unfold keeps, getDateOnly.
  cbn [FilterState.month FilterState.date FilterState.sender FilterState.receiver
       JS.truthy andb].
  rewrite HD. cbn [andb].
  destruct (parseTransferDate tza parse (Transaction.transfer_time t)) as [dt |].
  - cbv zeta. unfold dateStrOf, monthYearOf. rewrite !string_app_assoc.
    set (s := (JS.NumberToString (JSDate.getFullYear tza dt) ++ "-"
               ++ pad2 (option_map (fun m => m + 1) (JSDate.getMonth tza dt))
               ++ "-" ++ pad2 (JSDate.getDate tza dt))%string).
    assert (Hs : s <> "").
    { unfold s. destruct (JS.NumberToString (JSDate.getFullYear tza dt)); discriminate. }
    destruct (String.eqb_spec s D) as [E | E]; cbn [negb].
    + split; [intros [H _]; split; [exact H | now left] | intros [H _]; now split].
    + split; [intros [_ H]; discriminate |].
      intros [_ [H | H]]; [now elim E | now elim Hs].
  - split; [intros [H _]; split; [exact H | now right] | intros [H _]; now split].
Qed.

Lemma date_filter_agrees_with_getDateOnly_witness :
  In txJanuary (filterTransactions ict parseNothing [txNoTime; txJanuary]
                  (FilterState.mk "" "2024-01-15" "" ""))
  <-> In txJanuary [txNoTime; txJanuary]
      /\ (getDateOnly ict parseNothing (Transaction.transfer_time txJanuary) = "2024-01-15"
          \/ getDateOnly ict parseNothing (Transaction.transfer_time txJanuary) = "").
Proof.
  apply (date_filter_agrees_with_getDateOnly ict parseNothing
           [txNoTime; txJanuary] "2024-01-15" txJanuary).
  discriminate.
Defined.

(** ** White space, further tokens and the host's parser *)

Section TrimFacts.

Lemma trimStart_allWs_app (pad x : string) :
  allWs pad = true -> JS.trimStart (pad ++ x) = JS.trimStart x.
Proof.
  induction pad as [| c pad IH]; simpl; [reflexivity |].
  destruct (JS.isWhiteSpace c); simpl; [exact IH | discriminate].
Qed.

Lemma trimEnd_allWs (pad : string) : allWs pad = true -> JS.trimEnd pad = "".
Proof.
  induction pad as [| c pad IH]; simpl; [reflexivity |].
  destruct (JS.isWhiteSpace c); simpl; [| discriminate].
  intros H. now rewrite (IH H).
Qed.

Lemma trimEnd_app_allWs (x pad : string) :
  allWs pad = true -> JS.trimEnd (x ++ pad) = JS.trimEnd x.
Proof.
  intros H. induction x as [| c x IH]; cbn [append JS.trimEnd].
  - now apply trimEnd_allWs.
  - now rewrite IH.
Qed.

Lemma trimStart_app (s pad : string) :
  JS.trimStart s <> "" -> JS.trimStart (s ++ pad) = (JS.trimStart s ++ pad)%string.
Proof.
  induction s as [| c s IH]; simpl; [congruence |].
  destruct (JS.isWhiteSpace c); [exact IH | reflexivity].
Qed.

Lemma trimEnd_nonempty (s : string) : JS.trimEnd s <> "" -> s <> "".
Proof. destruct s; simpl; congruence. Qed.

(** White space around a string that is not all white space does not
    change what [trim] returns. *)
Lemma trim_padded (pad1 s pad2 : string) :
  allWs pad1 = true -> allWs pad2 = true -> JS.trim s <> "" ->
  JS.trim (pad1 ++ s ++ pad2) = JS.trim s.
Proof.
  intros H1 H2 Hs. unfold JS.trim in *.
  rewrite (trimStart_allWs_app _ _ H1).
  rewrite trimStart_app by (now apply trimEnd_nonempty).
  now apply trimEnd_app_allWs.
Qed.

Lemma hasThreeDateParts_trim (s : string) :
  hasThreeDateParts s = true -> JS.trim s <> "".
Proof.
  unfold hasThreeDateParts. intros H E. rewrite E in H. discriminate.
Qed.

Variable tza : JSDate.TimeZone.

(** In its first branch the parser reads the trimmed string only. *)
Lemma parseTransferDate_first_branch (p p' : string -> option Z) (s s' : string) :
  hasThreeDateParts s = true ->
  JS.trim s' = JS.trim s ->
  JS.truthy s' = true ->
  parseTransferDate tza p' (Some s') = parseTransferDate tza p (Some s).
Proof.
  intros H3 Ht Hs'.
  assert (Hs : JS.truthy s = true).
  { apply truthy_true_iff. intros ->. now apply (hasThreeDateParts_trim "" H3). }
  unfold parseTransferDate. rewrite Hs, Hs', Ht. cbn [negb].
  unfold hasThreeDateParts in H3.
  destruct (1 <=? List.length (JS.split " " (JS.trim s)))%nat eqn:E1.
  - destruct (elem (JS.split " " (JS.trim s)) 0) as [p0 |]; [| reflexivity].
    now rewrite H3.
  - destruct (JS.split " " (JS.trim s)); [discriminate H3 | discriminate E1].
Qed.

End TrimFacts.

(** X9: white space before and after a transfer_time whose date token has
    three parts between slashes does not change the Date the parser
    returns. *)
Theorem parseTransferDate_ignores_outer_white_space
    (tza : JSDate.TimeZone) (parse : string -> option Z) (pad1 s pad2 : string) :
  allWs pad1 = true ->
  allWs pad2 = true ->
  hasThreeDateParts s = true ->
  parseTransferDate tza parse (Some (pad1 ++ s ++ pad2))
  = parseTransferDate tza parse (Some s).
Proof.
  intros H1 H2 H3.
  pose proof (hasThreeDateParts_trim s H3) as Ht.
  apply parseTransferDate_first_branch; [exact H3 | now apply trim_padded |].
  apply truthy_true_iff. intros E.
  assert (Hs : s <> "") by (intros ->; now apply Ht).
  destruct pad1; [destruct s; [congruence | discriminate] | discriminate].
Qed.

Lemma parseTransferDate_ignores_outer_white_space_witness :
  parseTransferDate ict parseNothing (Some (" " ++ "15/01/2024 10:00:00" ++ "  "))
  = parseTransferDate ict parseNothing (Some "15/01/2024 10:00:00").
Proof.
  apply (parseTransferDate_ignores_outer_white_space ict parseNothing
           " " "15/01/2024 10:00:00" "  "); reflexivity.
Defined.



(** X11: a third token after the time makes the parser ignore the time:
    DD/MM/YYYY HH:MM:SS followed by a space and one more token gives the
    Date of DD/MM/YYYY alone, midnight of that day. *)
Theorem third_token_drops_the_time
    (tza : JSDate.TimeZone) (parse : string -> option Z) (d m y : Z) (tok : TimeToken)
    (extra : string) :
  0 <= d <= 99 ->
  0 <= m <= 99 ->
  0 <= y <= 9999 ->
  twoDigitTime tok ->
  tok <> NoTime ->
  isToken extra = true ->
  parseTransferDate tza parse (Some (render d m y tok ++ String " " extra))
  = parseTransferDate tza parse (Some (dateToken d m y)).
Proof.
  intros Hd Hm Hy Htok Hne Hex.
  unfold isToken in Hex. apply andb_true_iff in Hex. destruct Hex as [Hns Hend].
  change (dateToken d m y) with (render d m y NoTime).
  rewrite (parseTransferDate_render tza parse d m y Hd Hm Hy NoTime)
    by (unfold twoDigitTime; simpl; lia).
  destruct (tokenOk_elim _ _ (digit2_ok d Hd)) as (Hpd & _).
  destruct (tokenOk_elim _ _ (digit2_ok m Hm)) as (Hpm & _).
  destruct (tokenOk_elim _ _ (digit4_ok y Hy)) as (Hpy & _).
  assert (Hs : (render d m y tok ++ String " " extra)%string
               = (dateToken d m y ++ String " " (timeToken tok ++ String " " extra))%string).
  { destruct tok; [congruence | |]; cbn [render]; now rewrite string_app_assoc. }
  rewrite Hs.
  assert (Htr : JS.truthy (dateToken d m y ++ String " " (timeToken tok ++ String " " extra))
                = true) by reflexivity.
  assert (Htrim : JS.trim (dateToken d m y ++ String " " (timeToken tok ++ String " " extra))
                  = (dateToken d m y ++ String " " (timeToken tok ++ String " " extra))%string).
  { unfold JS.trim. rewrite trimStart_id by (apply headNonWs_app, dateToken_head, Hd).
    apply trimEnd_id. now apply endsNonWs_app_sep, endsNonWs_app_sep. }
  assert (Hsplit : JS.split " " (dateToken d m y
                                 ++ String " " (timeToken tok ++ String " " extra))
                   = [dateToken d m y; timeToken tok; extra]).
  { rewrite (split_app_sep _ _ _ (dateToken_no_space d m y Hd Hm Hy)).
    rewrite (split_app_sep _ _ _ (timeToken_no_space tok Htok)).
    now rewrite (split_no_sep _ _ Hns). }
  unfold parseTransferDate. rewrite Htr, Htrim, Hsplit. cbn [negb].
  cbn [List.length Nat.leb Nat.eqb elem nth_error andb].
  rewrite (split_dateToken d m y Hd Hm Hy). cbn [List.length Nat.eqb].
  unfold parseIntElem. cbn [elem nth_error JS.ToStringElem].
  rewrite Hpd, Hpm, Hpy. reflexivity.
Qed.

Lemma third_token_drops_the_time_witness :
  parseTransferDate ict parseNothing (Some "15/01/2024 10:00:00 PM")
  = parseTransferDate ict parseNothing (Some "15/01/2024").
Proof.
  change "15/01/2024 10:00:00 PM"
    with (render 15 1 2024 (HourMinuteSecond 10 0 0) ++ String " " "PM")%string.
  change "15/01/2024" with (dateToken 15 1 2024).
  apply (third_token_drops_the_time ict parseNothing 15 1 2024
           (HourMinuteSecond 10 0 0) "PM").
  - lia.
  - lia.
  - lia.
  - unfold twoDigitTime. simpl. lia.
  - discriminate.
  - reflexivity.
Defined.

(** ** The cards and their filters *)

Section CardFacts.

Lemma orElse_empty_r (a : string) : JS.orElse a "" = a.
Proof. now destruct a. Qed.

(** The callback for month, date and sender together is the one for month
    and date and the one for sender. *)
Lemma keeps_dates_and_sender (tza : JSDate.TimeZone) (parse : string -> option Z)
    (M D S : string) (t : Transaction.t) :
  keeps tza parse (FilterState.mk M D S "") t
  = keeps tza parse (FilterState.mk M D "" "") t
    && keeps tza parse (FilterState.mk "" "" S "") t.
Proof.
  unfold keeps. cbn [FilterState.month FilterState.date FilterState.sender
                     FilterState.receiver JS.truthy andb].
  destruct (parseTransferDate tza parse (Transaction.transfer_time t)) as [d |].
  - destruct (JS.truthy M && _); [reflexivity |].
    destruct (JS.truthy D && _); [reflexivity |].
    destruct (JS.truthy S && _); reflexivity.
  - destruct (JS.truthy S && _); reflexivity.
Qed.

Lemma cardEvent_total_change (i : nat) (v : string) (f : FilterState.t) :
  cardEvent totalCardFilters (Change i v) f
  = match i with
    | O => FilterState.mk v (FilterState.date f)
             (FilterState.sender f) (FilterState.receiver f)
    | S O => FilterState.mk (FilterState.month f) v
               (FilterState.sender f) (FilterState.receiver f)
    | _ => f
    end.
Proof. destruct i as [| [| [| i]]]; reflexivity. Qed.

Lemma cardEvent_avg_change (i : nat) (v : string) (f : FilterState.t) :
  cardEvent avgCardFilters (Change i v) f
  = match i with
    | O => FilterState.mk (FilterState.month f) (FilterState.date f)
             v (FilterState.receiver f)
    | _ => f
    end.
Proof. destruct i as [| [| i]]; reflexivity. Qed.

Lemma cardEvent_total_clear (f : FilterState.t) :
  cardEvent totalCardFilters ClearAll f
  = FilterState.mk (FilterState.month f) ""
      (FilterState.sender f) (FilterState.receiver f).
Proof.
  destruct f as [m d s r]. unfold cardEvent, totalCardFilters, hasActiveFilter.
  cbn [existsb FilterConfig.value FilterState.month FilterState.date orb].
  destruct m as [| c m]; destruct d as [| c' d]; reflexivity.
Qed.

Lemma cardEvent_avg_clear (f : FilterState.t) :
  cardEvent avgCardFilters ClearAll f
  = FilterState.mk (FilterState.month f) (FilterState.date f)
      "" (FilterState.receiver f).
Proof.
  destruct f as [m d s r]. unfold cardEvent, avgCardFilters, hasActiveFilter.
  cbn [existsb FilterConfig.value FilterState.sender orb].
  destruct s as [| c s]; reflexivity.
Qed.

Lemma step_invariant (st : Cards) (e : DashEvent) :
  cardsInvariant st -> cardsInvariant (step st e).
Proof.
  unfold cardsInvariant. intros (H1 & H2 & H3 & H4 & H5).
  destruct e as [[i v |] | [i v |]]; cbn [step totalAmountFilter avgAmountFilter].
  - rewrite cardEvent_total_change. destruct i as [| [| i]]; now repeat split.
  - rewrite cardEvent_total_clear. now repeat split.
  - rewrite cardEvent_avg_change. destruct i as [| i]; now repeat split.
  - rewrite cardEvent_avg_clear. now repeat split.
Qed.

Lemma run_invariant (events : list DashEvent) (st : Cards) :
  cardsInvariant st -> cardsInvariant (run st events).
Proof.
  revert st. induction events as [| e events IH]; intros st H; [exact H |].
  apply IH, step_invariant, H.
Qed.

End CardFacts.

(** X12: whatever the user types into the two cards and however often
    Clear All Filters is pressed, the total card's filter has no sender and
    no receiver, and the average card's filter has no month, no date and no
    receiver. *)
Theorem cards_keep_to_their_own_fields (events : list DashEvent) :
  cardsInvariant (run initialCards events).
Proof.
  apply run_invariant. now repeat split.
Qed.

(** X13: in every state the events lead to, the rows of the table are
    exactly the transactions that are in the list of the total card and in
    the list of the average card. *)
Theorem table_rows_are_in_both_cards
    (tza : JSDate.TimeZone) (parse : string -> option Z)
    (transactions : list Transaction.t) (events : list DashEvent) (t : Transaction.t) :
  In t (tableTransactions tza parse transactions
          (totalAmountFilter (run initialCards events))
          (avgAmountFilter (run initialCards events)))
  <-> In t (filterTransactions tza parse transactions
              (totalAmountFilter (run initialCards events)))
      /\ In t (filterTransactions tza parse transactions
                 (avgAmountFilter (run initialCards events))).
Proof.
  destruct (cards_keep_to_their_own_fields events) as (H1 & H2 & H3 & H4 & H5).
  destruct (run initialCards events) as [[tm td ts tr] [am ad asd ar]].
  cbn [totalAmountFilter avgAmountFilter FilterState.month FilterState.date
       FilterState.sender FilterState.receiver] in *. subst.
  unfold tableTransactions, combinedFilter, filterTransactions.
  cbn [FilterState.month FilterState.date FilterState.sender FilterState.receiver].
  rewrite !orElse_empty_r, !filter_In.
  rewrite (keeps_dates_and_sender tza parse tm td asd t).
  rewrite andb_true_iff. tauto.
Qed.

(** X14: Clear All Filters on the total card empties the date field and
    leaves the month field as it was, since both calls of the loop spread
    the filter of the render and the later one wins; on the average card it
    empties the sender field. *)
Theorem clear_all_keeps_the_month (f : FilterState.t) :
  cardEvent totalCardFilters ClearAll f
  = FilterState.mk (FilterState.month f) ""
      (FilterState.sender f) (FilterState.receiver f)
  /\ hasActiveFilter (totalCardFilters (cardEvent totalCardFilters ClearAll f))
     = JS.truthy (FilterState.month f)
  /\ cardEvent avgCardFilters ClearAll f
     = FilterState.mk (FilterState.month f) (FilterState.date f)
         "" (FilterState.receiver f)
  /\ hasActiveFilter (avgCardFilters (cardEvent avgCardFilters ClearAll f)) = false.
Proof.
  rewrite cardEvent_total_clear, cardEvent_avg_clear.
  repeat split. unfold hasActiveFilter, totalCardFilters.
  cbn [existsb FilterConfig.value FilterState.month FilterState.date JS.truthy].
  now rewrite !orb_false_r.
Qed.

(** X15: no sequence of Clear All Filters clicks, on either card, changes
    the month field of the total card. *)
Theorem clear_all_never_clears_the_month (st : Cards) (events : list DashEvent) :
  Forall (fun e => e = OnTotalCard ClearAll \/ e = OnAvgCard ClearAll) events ->
  FilterState.month (totalAmountFilter (run st events))
  = FilterState.month (totalAmountFilter st).
Proof.
  intros H. revert st. induction H as [| e events He _ IH]; intros st; [reflexivity |].
  cbn [run fold_left]. fold (run (step st e) events). rewrite IH.
  destruct He as [-> | ->]; cbn [step totalAmountFilter]; [| reflexivity].
  now rewrite cardEvent_total_clear.
Qed.

Lemma clear_all_never_clears_the_month_witness :
  FilterState.month
    (totalAmountFilter
       (run (mkCards (FilterState.mk "2024-01" "2024-01-15" "" "") noFilter)
          [OnTotalCard ClearAll; OnAvgCard ClearAll; OnTotalCard ClearAll]))
  = FilterState.month
      (totalAmountFilter (mkCards (FilterState.mk "2024-01" "2024-01-15" "" "") noFilter)).
Proof.
  apply (clear_all_never_clears_the_month
           (mkCards (FilterState.mk "2024-01" "2024-01-15" "" "") noFilter)
           [OnTotalCard ClearAll; OnAvgCard ClearAll; OnTotalCard ClearAll]).
  constructor; [left; reflexivity |].
  constructor; [right; reflexivity |].
  constructor; [left; reflexivity |].
  constructor.
Defined.

(** X16: after typing [v] into the [i]-th input of a card, that input shows
    [v] and the other inputs of the card show what they showed; a card has
    no other input to type into. *)
Theorem typed_value_is_shown (i j : nat) (v : string) (f : FilterState.t) :
  nth_error (map FilterConfig.value
               (totalCardFilters (cardEvent totalCardFilters (Change i v) f))) j
  = (if (i <? List.length (totalCardFilters f))%nat && (j =? i)%nat then Some v
     else nth_error (map FilterConfig.value (totalCardFilters f)) j)
  /\ nth_error (map FilterConfig.value
                  (avgCardFilters (cardEvent avgCardFilters (Change i v) f))) j
     = (if (i <? List.length (avgCardFilters f))%nat && (j =? i)%nat then Some v
        else nth_error (map FilterConfig.value (avgCardFilters f)) j).
Proof.
  split.
  - rewrite cardEvent_total_change.
    destruct i as [| [| i]]; destruct j as [| [| j]]; try reflexivity;
      now destruct j.
  - rewrite cardEvent_avg_change.
    destruct i as [| i]; destruct j as [| j]; try reflexivity; now destruct j.
Qed.

(** ** The theme *)

(** X17: the theme starts dark, and after [n] clicks on the theme button it
    is dark when [n] is even and light when [n] is odd. *)
Theorem theme_after_clicks (n : nat) :
  Nat.iter n clickToggle initialTheme = if Nat.even n then dark else light.
Proof.
  induction n as [| n IH]; [reflexivity |].
  change (Nat.iter (S n) clickToggle initialTheme)
    with (clickToggle (Nat.iter n clickToggle initialTheme)).
  rewrite IH, Nat.even_succ, <- Nat.negb_even.
  now destruct (Nat.even n).
Qed.

(** ** The fetch *)

(** X18: once the fetch has run the loading screen is gone; a response
    that carries an error ends in the error screen, with a message that
    starts with "Supabase Error: " and with no transactions, whatever rows
    came with it; a rejection with an Error whose message is empty ends in
    the dashboard with no transactions, not in the error screen. *)
Theorem fetch_outcomes
    (query : Supabase.Settled Supabase.Response)
    (data : option (list Transaction.t)) (e : Supabase.PostgrestError) :
  screen (fetchTransactions query) <> LoadingScreen
  /\ (exists rest,
        screen (fetchTransactions
                  (Supabase.Fulfilled (Supabase.mkResponse data (Some e))))
        = ErrorScreen ("Supabase Error: " ++ rest))
  /\ transactions (fetchTransactions
                     (Supabase.Fulfilled (Supabase.mkResponse data (Some e)))) = []
  /\ screen (fetchTransactions (Supabase.Rejected (Supabase.ErrorObject "")))
     = DashboardScreen [].
Proof.
  repeat split.
  - unfold screen, fetchTransactions.
    destruct (Supabase.getTransactions query) as [d | err]; cbn [loading error].
    + discriminate.
    + destruct (JS.truthy _); discriminate.
  - eexists. reflexivity.
Qed.
